(** * ALSA capture source of obs-studio (plugins/linux-alsa/alsa-input.c)

    A shallow embedding of the capture plugin: the session record
    [alsa_data], the device enumerator [alsa_device_list], the format
    negotiator [alsa_set_hwparams], the fault recovery [alsa_handle_xrun],
    the capture thread [alsa_thread] and the session life cycle
    ([alsa_init], [alsa_terminate], [alsa_update], [alsa_destroy]).

    The plugin is glue around alsa-lib, pthreads and libobs.  Every call
    that leaves the file is a constructor of [call]; what the library
    answers is decided by an environment [alsa_env], about which the
    theorems make no assumption beyond what they state.  A run of a
    function yields its result, the list of library calls it made with
    their answers, and the world it leaves behind. *)

From Stdlib Require Import ZArith List String Bool Lia DecimalString.
Import ListNotations.
Local Open Scope Z_scope.

Set Implicit Arguments.

(** ** C types *)

(** [snd_pcm_format_t]: the four encodings the plugin maps, and the rest. *)
Inductive snd_pcm_format_t : Type :=
| SND_PCM_FORMAT_U8
| SND_PCM_FORMAT_S16_LE
| SND_PCM_FORMAT_S32_LE
| SND_PCM_FORMAT_FLOAT_LE
| SND_PCM_FORMAT_OTHER (code : Z).

Inductive audio_format : Type :=
| AUDIO_FORMAT_UNKNOWN
| AUDIO_FORMAT_U8BIT_PLANAR
| AUDIO_FORMAT_16BIT_PLANAR
| AUDIO_FORMAT_32BIT_PLANAR
| AUDIO_FORMAT_FLOAT_PLANAR.

Inductive snd_pcm_state_t : Type :=
| SND_PCM_STATE_OPEN
| SND_PCM_STATE_SETUP
| SND_PCM_STATE_PREPARED
| SND_PCM_STATE_RUNNING
| SND_PCM_STATE_XRUN
| SND_PCM_STATE_DRAINING
| SND_PCM_STATE_PAUSED
| SND_PCM_STATE_SUSPENDED
| SND_PCM_STATE_DISCONNECTED.

Inductive snd_pcm_access_t : Type :=
| SND_PCM_ACCESS_MMAP_INTERLEAVED
| SND_PCM_ACCESS_MMAP_NONINTERLEAVED
| SND_PCM_ACCESS_MMAP_COMPLEX
| SND_PCM_ACCESS_RW_INTERLEAVED
| SND_PCM_ACCESS_RW_NONINTERLEAVED.

Inductive snd_pcm_stream_t : Type :=
| SND_PCM_STREAM_PLAYBACK
| SND_PCM_STREAM_CAPTURE.

Inductive snd_pcm_open_mode : Type :=
| SND_PCM_BLOCK
| SND_PCM_NONBLOCK.

Inductive os_event_type : Type :=
| OS_EVENT_TYPE_AUTO
| OS_EVENT_TYPE_MANUAL.

(** [errno] value of Linux; alsa-lib reports it negated. *)
Definition EAGAIN : Z := 11.

Definition UINT_MAX : Z := 4294967295.
Definition MAX_BUFFER_TIME_US : Z := 500000.
Definition MSEC_PER_SEC : Z := 1000.

(** The macros [OBS_MIN] and [OBS_MAX]. *)
Definition OBS_MIN (a b : Z) : Z := if a <? b then a else b.
Definition OBS_MAX (a b : Z) : Z := if a >? b then a else b.

(** Conversions to [uint32_t] and to [unsigned long] / [size_t]. *)
Definition to_uint32 (z : Z) : Z := z mod 2 ^ 32.
Definition to_ulong (z : Z) : Z := z mod 2 ^ 64.

(** [struct obs_source_audio], the buffer handed to the host.  [data]
    holds one plane pointer per channel. *)
Record obs_source_audio : Type := {
  data : list Z;
  frames : Z;
  speakers : Z;
  format : audio_format;
  samples_per_sec : Z;
  timestamp : Z
}.

(** [struct alsa_data].  Pointers and [pthread_t] are integers, null is 0;
    the string [device] is [None] when the pointer is null. *)
Record alsa_data : Type := {
  source : Z;
  thread : Z;
  event : Z;
  num_pollfds : Z;
  device : option string;
  pcm : Z;
  pcm_format : snd_pcm_format_t;
  channels : Z;
  sample_rate : Z;
  buffer_size : Z;
  period_size : Z
}.

Definition set_thread (d : alsa_data) (v : Z) : alsa_data :=
  {| source := source d; thread := v; event := event d;
     num_pollfds := num_pollfds d; device := device d; pcm := pcm d;
     pcm_format := pcm_format d; channels := channels d;
     sample_rate := sample_rate d; buffer_size := buffer_size d;
     period_size := period_size d |}.

Definition set_event (d : alsa_data) (v : Z) : alsa_data :=
  {| source := source d; thread := thread d; event := v;
     num_pollfds := num_pollfds d; device := device d; pcm := pcm d;
     pcm_format := pcm_format d; channels := channels d;
     sample_rate := sample_rate d; buffer_size := buffer_size d;
     period_size := period_size d |}.

Definition set_pcm (d : alsa_data) (v : Z) : alsa_data :=
  {| source := source d; thread := thread d; event := event d;
     num_pollfds := num_pollfds d; device := device d; pcm := v;
     pcm_format := pcm_format d; channels := channels d;
     sample_rate := sample_rate d; buffer_size := buffer_size d;
     period_size := period_size d |}.

Definition set_sample_rate (d : alsa_data) (v : Z) : alsa_data :=
  {| source := source d; thread := thread d; event := event d;
     num_pollfds := num_pollfds d; device := device d; pcm := pcm d;
     pcm_format := pcm_format d; channels := channels d;
     sample_rate := v; buffer_size := buffer_size d;
     period_size := period_size d |}.

Definition set_buffer_size (d : alsa_data) (v : Z) : alsa_data :=
  {| source := source d; thread := thread d; event := event d;
     num_pollfds := num_pollfds d; device := device d; pcm := pcm d;
     pcm_format := pcm_format d; channels := channels d;
     sample_rate := sample_rate d; buffer_size := v;
     period_size := period_size d |}.

Definition set_period_size (d : alsa_data) (v : Z) : alsa_data :=
  {| source := source d; thread := thread d; event := event d;
     num_pollfds := num_pollfds d; device := device d; pcm := pcm d;
     pcm_format := pcm_format d; channels := channels d;
     sample_rate := sample_rate d; buffer_size := buffer_size d;
     period_size := v |}.

Definition set_device (d : alsa_data) (v : option string) : alsa_data :=
  {| source := source d; thread := thread d; event := event d;
     num_pollfds := num_pollfds d; device := v; pcm := pcm d;
     pcm_format := pcm_format d; channels := channels d;
     sample_rate := sample_rate d; buffer_size := buffer_size d;
     period_size := period_size d |}.

Definition set_channels (d : alsa_data) (v : Z) : alsa_data :=
  {| source := source d; thread := thread d; event := event d;
     num_pollfds := num_pollfds d; device := device d; pcm := pcm d;
     pcm_format := pcm_format d; channels := v;
     sample_rate := sample_rate d; buffer_size := buffer_size d;
     period_size := period_size d |}.

(** ** The library boundary *)

(** What [bfree] is handed. *)
Inductive block : Type :=
| block_device (s : option string)
| block_session (d : alsa_data)
| block_audio (p : Z)
| block_description (s : string).

(** One constructor per library function the plugin calls.  An argument
    that the C code passes by address ([&data->pcm], [&buffer_time], ...)
    carries the content of that location before the call; the answer
    carries its content after the call. *)
Inductive call : Type :=
(* session life cycle *)
| snd_pcm_open (pcmp : Z) (name : option string) (stream : snd_pcm_stream_t)
               (mode : snd_pcm_open_mode)
| snd_pcm_close (p : Z)
| os_event_init (eventp : Z) (type : os_event_type)
| os_event_signal (ev : Z)
| os_event_destroy (ev : Z)
| os_event_try (ev : Z)
| pthread_create (threadp : Z)
| pthread_join (t : Z)
| bzalloc (size : Z)
| bfree (b : block)
(* hardware parameters *)
| snd_pcm_hw_params_any (p : Z)
| snd_pcm_hw_params_set_access (p : Z) (a : snd_pcm_access_t)
| snd_pcm_hw_params_set_format (p : Z) (f : snd_pcm_format_t)
| snd_pcm_hw_params_set_channels (p : Z) (c : Z)
| snd_pcm_hw_params_set_rate_near (p : Z) (val : Z)
| snd_pcm_hw_params_get_buffer_time_max (val : Z)
| snd_pcm_hw_params_get_period_time_min (val : Z)
| snd_pcm_hw_params_set_buffer_time_near (p : Z) (val : Z)
| snd_pcm_hw_params_set_period_time_near (p : Z) (val : Z)
| snd_pcm_hw_params_get_period_size (val : Z)
| snd_pcm_hw_params_get_buffer_size (val : Z)
| snd_pcm_hw_params (p : Z)
(* capture *)
| snd_pcm_start (p : Z)
| snd_pcm_wait (p : Z) (timeout : Z)
| snd_pcm_mmap_readn (p : Z) (bufs : list Z) (size : Z)
| snd_pcm_delay (p : Z) (delayp : Z)
| snd_pcm_resume (p : Z)
| snd_pcm_prepare (p : Z)
| sleep (seconds : Z)
| get_audio_sample_time (nframes : Z) (rate : Z)
| obs_source_output_audio (src : Z) (audio : obs_source_audio)
(* control interface *)
| snd_card_next (card : Z)
| snd_ctl_open (name : string) (mode : Z)
| snd_ctl_card_info (ctl : Z) (info : Z)
| snd_ctl_close (ctl : Z)
| snd_ctl_pcm_next_device (ctl : Z) (dev : Z)
| snd_ctl_pcm_info (ctl : Z) (dev : Z) (stream : snd_pcm_stream_t) (info : Z)
(* property list of the host *)
| obs_property_list_clear (prop : Z)
| obs_property_list_add_string (prop : Z) (name : string) (val : string).

(** The answer to a call: the value returned and, for a function with an
    out-parameter, the content of the location afterwards. *)
Record reply : Type := Reply { ret : Z; out : Z }.

(** An entry of the log of a run. *)
Inductive step : Type :=
| Called (c : call) (r : reply)
| StateOf (p : Z) (s : snd_pcm_state_t).

(** The libraries as seen by the plugin, over a world [W] of their own. *)
Record alsa_env (W : Type) : Type := {
  lib : call -> W -> reply * W;
  snd_pcm_state : Z -> W -> snd_pcm_state_t * W;
  snd_pcm_format_width : snd_pcm_format_t -> Z;
  get_speaker_layout : Z -> Z;
  snd_ctl_card_info_get_name : Z -> string;
  snd_pcm_info_get_name : Z -> string
}.

(** ** Runs *)

(** A run ends with a value, or without one when a loop was cut short by
    its bound; the log and the world are kept in both cases. *)
Record outcome (W A : Type) : Type := {
  value : option A;
  trace : list step;
  world : W
}.

Definition M (W A : Type) : Type := W -> outcome W A.

Definition Return {W A : Type} (a : A) : M W A :=
  fun w => {| value := Some a; trace := []; world := w |}.

Definition bind {W A B : Type} (m : M W A) (k : A -> M W B) : M W B :=
  fun w =>
    let r := m w in
    match value r with
    | None => {| value := None; trace := trace r; world := world r |}
    | Some a =>
        let r' := k a (world r) in
        {| value := value r'; trace := trace r ++ trace r';
           world := world r' |}
    end.

Definition out_of_fuel {W A : Type} : M W A :=
  fun w => {| value := None; trace := []; world := w |}.

Declare Scope run_scope.
Delimit Scope run_scope with run.
Notation "x <- c1 ;; c2" := (bind c1 (fun x => c2))
  (at level 61, c1 at next level, right associativity) : run_scope.
Notation "c1 ;;; c2" := (bind c1 (fun _ => c2))
  (at level 61, right associativity) : run_scope.
Local Open Scope run_scope.

(** ** The plugin *)

(** [alsa_to_obs_audio_format]. *)
Definition alsa_to_obs_audio_format (f : snd_pcm_format_t) : audio_format :=
  match f with
  | SND_PCM_FORMAT_U8 => AUDIO_FORMAT_U8BIT_PLANAR
  | SND_PCM_FORMAT_S16_LE => AUDIO_FORMAT_16BIT_PLANAR
  | SND_PCM_FORMAT_S32_LE => AUDIO_FORMAT_32BIT_PLANAR
  | SND_PCM_FORMAT_FLOAT_LE => AUDIO_FORMAT_FLOAT_PLANAR
  | SND_PCM_FORMAT_OTHER _ => AUDIO_FORMAT_UNKNOWN
  end.

Section Plugin.

Context {W : Type}.
Variable env : alsa_env W.

Definition invoke (c : call) : M W reply :=
  fun w =>
    let '(r, w') := lib env c w in
    {| value := Some r; trace := [Called c r]; world := w' |}.

Definition query_state (p : Z) : M W snd_pcm_state_t :=
  fun w =>
    let '(s, w') := snd_pcm_state env p w in
    {| value := Some s; trace := [StateOf p s]; world := w' |}.

(** *** Fault recovery *)

(** The loop [while ((ret = snd_pcm_resume(pcm)) == -EAGAIN) sleep(1);]
    yields the first answer that is not [-EAGAIN]. *)
Fixpoint resume_loop (fuel : nat) (p : Z) : M W Z :=
  match fuel with
  | O => out_of_fuel
  | S fuel' =>
      r <- invoke (snd_pcm_resume p) ;;
      if ret r =? - EAGAIN
      then invoke (sleep 1) ;;; resume_loop fuel' p
      else Return (ret r)
  end.

(** [case SND_PCM_STATE_XRUN:] of [alsa_handle_xrun], which the suspended
    case falls into. *)
Definition xrun_case (p : Z) : M W Z :=
  r <- invoke (snd_pcm_prepare p) ;;
  if ret r <? 0 then Return (ret r) else Return 0.

(** [alsa_handle_xrun]. *)
Definition alsa_handle_xrun (fuel : nat) (p : Z) : M W Z :=
  s <- query_state p ;;
  match s with
  | SND_PCM_STATE_SUSPENDED =>
      r <- resume_loop fuel p ;;
      if r >=? 0 then Return 0 else xrun_case p
  | SND_PCM_STATE_XRUN => xrun_case p
  | _ => Return (-1)
  end.

(** *** Session life cycle *)

(** [alsa_terminate]. *)
Definition alsa_terminate (d : alsa_data) : M W alsa_data :=
  d <- (if thread d =? 0 then Return d
        else invoke (os_event_signal (event d)) ;;;
             invoke (pthread_join (thread d)) ;;;
             invoke (os_event_destroy (event d)) ;;;
             Return (set_thread d 0)) ;;
  if pcm d =? 0 then Return d
  else invoke (snd_pcm_close (pcm d)) ;;;
       Return (set_pcm d 0).

(** [alsa_set_hwparams].  The session is written through [data] also on
    the paths that fail, so it is returned with the result.  [ret] is the
    C variable of that name: the last call does not assign it. *)
Definition alsa_set_hwparams (p : Z) (d : alsa_data) : M W (Z * alsa_data) :=
  let buffer_time := UINT_MAX in
  let period_time := 0 in
  r <- invoke (snd_pcm_hw_params_any p) ;;
  if ret r <? 0 then Return (ret r, d) else
  r <- invoke (snd_pcm_hw_params_set_access p
                 SND_PCM_ACCESS_MMAP_NONINTERLEAVED) ;;
  if ret r <? 0 then Return (ret r, d) else
  r <- invoke (snd_pcm_hw_params_set_format p (pcm_format d)) ;;
  if ret r <? 0 then Return (ret r, d) else
  r <- invoke (snd_pcm_hw_params_set_channels p (channels d)) ;;
  if ret r <? 0 then Return (ret r, d) else
  r <- invoke (snd_pcm_hw_params_set_rate_near p (sample_rate d)) ;;
  let d := set_sample_rate d (out r) in
  if ret r <? 0 then Return (ret r, d) else
  g <- invoke (snd_pcm_hw_params_get_buffer_time_max buffer_time) ;;
  let buffer_time := OBS_MIN (out g) MAX_BUFFER_TIME_US in
  g <- invoke (snd_pcm_hw_params_get_period_time_min period_time) ;;
  let period_time := OBS_MAX (out g) (buffer_time / 4) in
  r <- invoke (snd_pcm_hw_params_set_buffer_time_near p buffer_time) ;;
  if ret r <? 0 then Return (ret r, d) else
  r <- invoke (snd_pcm_hw_params_set_period_time_near p period_time) ;;
  if ret r <? 0 then Return (ret r, d) else
  g <- invoke (snd_pcm_hw_params_get_period_size (period_size d)) ;;
  let d := set_period_size d (out g) in
  g <- invoke (snd_pcm_hw_params_get_buffer_size (buffer_size d)) ;;
  let d := set_buffer_size d (out g) in
  invoke (snd_pcm_hw_params p) ;;;
  if ret r <? 0 then Return (ret r, d) else
  Return (0, d).

(** [alsa_init]. *)
Definition alsa_init (d : alsa_data) : M W (bool * alsa_data) :=
  r <- invoke (snd_pcm_open (pcm d) (device d) SND_PCM_STREAM_CAPTURE
                 SND_PCM_NONBLOCK) ;;
  let d := set_pcm d (out r) in
  if ret r <? 0 then Return (false, d) else
  hd <- alsa_set_hwparams (pcm d) d ;;
  let d := snd hd in
  if fst hd <? 0 then Return (false, d) else
  r <- invoke (os_event_init (event d) OS_EVENT_TYPE_MANUAL) ;;
  let d := set_event d (out r) in
  if negb (ret r =? 0) then Return (false, d) else
  r <- invoke (pthread_create (thread d)) ;;
  let d := set_thread d (out r) in
  if negb (ret r =? 0) then Return (false, d) else
  Return (true, d).

(** *** Capture thread *)

(** How the loop [while (count > 0)] is left. *)
Inductive read_exit : Type :=
| period_done
| goto_exit.

Definition set_frames_timestamp (a : obs_source_audio) (f t : Z)
  : obs_source_audio :=
  {| data := data a; frames := f; speakers := speakers a;
     format := format a; samples_per_sec := samples_per_sec a;
     timestamp := t |}.

(** The loop [while (count > 0)] of [alsa_thread].  [a] is [obs_audio],
    [count] and [delay] are the C variables of those names. *)
Fixpoint read_loop (fuel : nat) (d : alsa_data) (a : obs_source_audio)
    (count delay : Z) : M W (read_exit * obs_source_audio) :=
  match fuel with
  | O => out_of_fuel
  | S fuel' =>
      if count >? 0 then
        r <- invoke (snd_pcm_mmap_readn (pcm d) (data a) count) ;;
        let nframes := ret r in
        if nframes =? - EAGAIN then read_loop fuel' d a count delay else
        let deliver :=
          g <- invoke (snd_pcm_delay (pcm d) delay) ;;
          let delay := out g in
          t <- invoke (get_audio_sample_time (nframes + delay)
                         (sample_rate d)) ;;
          let a := set_frames_timestamp a (to_uint32 nframes) (ret t) in
          invoke (obs_source_output_audio (source d) a) ;;;
          let count := to_ulong (count - nframes) in
          read_loop fuel' d a count delay in
        if nframes <? 0 then
          x <- alsa_handle_xrun fuel (pcm d) ;;
          if x <? 0 then Return (goto_exit, a) else deliver
        else deliver
      else Return (period_done, a)
  end.

(** The loop [while (os_event_try(data->event) == EAGAIN)]. *)
Fixpoint capture_loop (fuel : nat) (d : alsa_data) (a : obs_source_audio)
    : M W unit :=
  match fuel with
  | O => out_of_fuel
  | S fuel' =>
      e <- invoke (os_event_try (event d)) ;;
      if negb (ret e =? EAGAIN) then Return tt else
      let delay := 0 in
      let count := period_size d in
      r <- invoke (snd_pcm_wait (pcm d) MSEC_PER_SEC) ;;
      if (ret r =? 0) || (ret r =? - EAGAIN) then capture_loop fuel' d a else
      let reading :=
        x <- read_loop fuel d a count delay ;;
        match fst x with
        | goto_exit => Return tt
        | period_done => capture_loop fuel' d (snd x)
        end in
      if ret r <? 0 then
        x <- alsa_handle_xrun fuel (pcm d) ;;
        if x <? 0 then Return tt else reading
      else reading
  end.

(** [alsa_thread].  [obs_audio.frames] and [obs_audio.timestamp] are not
    initialised in C before the first read; they start at 0 here.  The
    offset [bytes_per_period * ch] is a [size_t] product and the plane
    address an address, both modulo 2^64. *)
Definition alsa_thread (fuel : nat) (d : alsa_data) : M W unit :=
  let bytes_per_period :=
    to_ulong (Z.quot (snd_pcm_format_width env (pcm_format d)) 8
              * period_size d) in
  m <- invoke (bzalloc (to_ulong (bytes_per_period * channels d))) ;;
  let audio := ret m in
  r <- invoke (snd_pcm_start (pcm d)) ;;
  if ret r <? 0 then Return tt else
  let a :=
    {| data := map (fun ch =>
                      to_ulong (audio
                                + to_ulong (bytes_per_period * Z.of_nat ch)))
                   (seq 0 (Z.to_nat (channels d)));
       frames := 0;
       speakers := get_speaker_layout env (channels d);
       format := alsa_to_obs_audio_format (pcm_format d);
       samples_per_sec := sample_rate d;
       timestamp := 0 |} in
  capture_loop fuel d a ;;;
  invoke (bfree (block_audio audio)) ;;;
  Return tt.

(** *** Device enumeration *)

(** [%i] of [printf]. *)
Definition string_of_Z (z : Z) : string :=
  NilZero.string_of_int (Z.to_int z).

(** [snprintf(device_str, sizeof(device_str), ...)] with
    [char device_str[32]]: at most 31 characters are kept. *)
Definition snprintf32 (s : string) : string := substring 0 31 s.

Definition strlen (s : string) : Z := Z.of_nat (String.length s).

(** The inner loop of [alsa_device_list], over the devices of one card.
    [card_info] and [pcm_info] are the contents of the two info blocks;
    the loop yields the content of [pcm_info] it leaves. *)
Fixpoint device_loop (fuel : nat) (prop card_ctl card card_info : Z)
    (pcm_info dev : Z) : M W Z :=
  match fuel with
  | O => out_of_fuel
  | S fuel' =>
      n <- invoke (snd_ctl_pcm_next_device card_ctl dev) ;;
      let dev := out n in
      if negb (ret n =? 0) then Return pcm_info else
      if dev <? 0 then Return pcm_info else
      i <- invoke (snd_ctl_pcm_info card_ctl dev SND_PCM_STREAM_CAPTURE
                     pcm_info) ;;
      let pcm_info := out i in
      if negb (ret i =? 0)
      then device_loop fuel' prop card_ctl card card_info pcm_info dev
      else
        let card_name := snd_ctl_card_info_get_name env card_info in
        let pcm_name := snd_pcm_info_get_name env pcm_info in
        let device_str :=
          snprintf32 ("plughw:" ++ string_of_Z card ++ ","
                      ++ string_of_Z dev)%string in
        invoke (bzalloc (strlen card_name + strlen pcm_name
                         + strlen device_str + 10)) ;;;
        let description :=
          (device_str ++ " (" ++ card_name ++ ", " ++ pcm_name ++ ")")%string in
        invoke (obs_property_list_add_string prop description device_str) ;;;
        invoke (bfree (block_description description)) ;;;
        device_loop fuel' prop card_ctl card card_info pcm_info dev
  end.

(** The outer loop of [alsa_device_list], over the cards. *)
Fixpoint card_loop (fuel : nat) (prop card card_info pcm_info : Z)
    : M W unit :=
  match fuel with
  | O => out_of_fuel
  | S fuel' =>
      let dev := -1 in
      n <- invoke (snd_card_next card) ;;
      let card := out n in
      if negb (ret n =? 0) then Return tt else
      if card <? 0 then Return tt else
      let device_str := snprintf32 ("hw:" ++ string_of_Z card)%string in
      o <- invoke (snd_ctl_open device_str 0) ;;
      let card_ctl := out o in
      if negb (ret o =? 0)
      then card_loop fuel' prop card card_info pcm_info else
      i <- invoke (snd_ctl_card_info card_ctl card_info) ;;
      let card_info := out i in
      if negb (ret i =? 0)
      then invoke (snd_ctl_close card_ctl) ;;;
           card_loop fuel' prop card card_info pcm_info
      else
        pcm_info <- device_loop fuel prop card_ctl card card_info
                      pcm_info dev ;;
        invoke (snd_ctl_close card_ctl) ;;;
        card_loop fuel' prop card card_info pcm_info
  end.

(** [alsa_device_list]. *)
Definition alsa_device_list (fuel : nat) (prop : Z) : M W unit :=
  invoke (obs_property_list_clear prop) ;;;
  invoke (obs_property_list_add_string prop "Default Audio Device"
            "default") ;;;
  card_loop fuel prop (-1) 0 0.

(** *** Hooks of the source *)

(** The two settings [alsa_update] reads from [obs_data_t]. *)
Record obs_data : Type := {
  pcm_name : string;
  force_mono : bool
}.

(** [alsa_update]. *)
Definition alsa_update (d : alsa_data) (settings : obs_data)
  : M W alsa_data :=
  d <- alsa_terminate d ;;
  invoke (bfree (block_device (device d))) ;;;
  let d := set_device d (Some (pcm_name settings)) in
  let d := set_channels d (if force_mono settings then 1 else 2) in
  r <- alsa_init d ;;
  Return (snd r).

(** [alsa_create]: the zeroed session with its three initial fields; the
    [bzalloc] of the session itself is not logged. *)
Definition alsa_create (settings : obs_data) (src : Z) : M W alsa_data :=
  let d :=
    {| source := src; thread := 0; event := 0; num_pollfds := 0;
       device := None; pcm := 0; pcm_format := SND_PCM_FORMAT_S16_LE;
       channels := 0; sample_rate := 48000; buffer_size := 0;
       period_size := 0 |} in
  alsa_update d settings.

(** [alsa_destroy]; [None] is the null session pointer. *)
Definition alsa_destroy (vptr : option alsa_data) : M W unit :=
  match vptr with
  | None => Return tt
  | Some d =>
      d <- alsa_terminate d ;;
      invoke (bfree (block_device (device d))) ;;;
      invoke (bfree (block_session d)) ;;;
      Return tt
  end.

End Plugin.

(** ** Observing runs *)

(** A run with [t] logged in front of it. *)
Definition prepend {W A : Type} (t : list step) (o : outcome W A)
  : outcome W A :=
  {| value := value o; trace := t ++ trace o; world := world o |}.

(** The library calls of a log, in order, without their answers. *)
Definition calls_of (t : list step) : list call :=
  flat_map (fun s => match s with
                     | Called c _ => [c]
                     | StateOf _ _ => []
                     end) t.

(** The calls of [alsa_set_hwparams]. *)
Definition is_negotiation (c : call) : bool :=
  match c with
  | snd_pcm_hw_params_any _
  | snd_pcm_hw_params_set_access _ _
  | snd_pcm_hw_params_set_format _ _
  | snd_pcm_hw_params_set_channels _ _
  | snd_pcm_hw_params_set_rate_near _ _
  | snd_pcm_hw_params_get_buffer_time_max _
  | snd_pcm_hw_params_get_period_time_min _
  | snd_pcm_hw_params_set_buffer_time_near _ _
  | snd_pcm_hw_params_set_period_time_near _ _
  | snd_pcm_hw_params_get_period_size _
  | snd_pcm_hw_params_get_buffer_size _
  | snd_pcm_hw_params _ => true
  | _ => false
  end.

Definition negotiation_step (s : step) : Prop :=
  match s with
  | Called c _ => is_negotiation c = true
  | StateOf _ _ => False
  end.

(** The calls of [alsa_handle_xrun]. *)
Definition recovery_step (s : step) : Prop :=
  match s with
  | Called (snd_pcm_resume _) _
  | Called (sleep _) _
  | Called (snd_pcm_prepare _) _
  | StateOf _ _ => True
  | _ => False
  end.

(** The entries of the property list a log builds: what
    [obs_property_list_add_string] added since the last
    [obs_property_list_clear], as (name, value). *)
Fixpoint listed (acc : list (string * string)) (t : list step)
  : list (string * string) :=
  match t with
  | [] => acc
  | Called (obs_property_list_clear _) _ :: t' => listed [] t'
  | Called (obs_property_list_add_string _ n v) _ :: t' =>
      listed (acc ++ [(n, v)]) t'
  | _ :: t' => listed acc t'
  end.

Section Retries.

Context {W : Type}.
Variable env : alsa_env W.

(** The world after one failed attempt to resume and the pause after it. *)
Definition after_retry (p : Z) (w : W) : W :=
  snd (lib env (sleep 1) (snd (lib env (snd_pcm_resume p) w))).

(** [retried n p w]: from [w], [snd_pcm_resume] answers [-EAGAIN] exactly
    [n] times and then something else. *)
Fixpoint retried (n : nat) (p : Z) (w : W) : Prop :=
  match n with
  | O => ret (fst (lib env (snd_pcm_resume p) w)) <> - EAGAIN
  | S k => ret (fst (lib env (snd_pcm_resume p) w)) = - EAGAIN
           /\ retried k p (after_retry p w)
  end.

(** The answer that ends those [n] retries, and the world after it. *)
Fixpoint resumed (n : nat) (p : Z) (w : W) : reply * W :=
  match n with
  | O => lib env (snd_pcm_resume p) w
  | S k => resumed k p (after_retry p w)
  end.

End Retries.

(** The calls of [n] failed attempts to resume. *)
Fixpoint retry_calls (n : nat) (p : Z) : list call :=
  match n with
  | O => []
  | S k => snd_pcm_resume p :: sleep 1 :: retry_calls k p
  end.

(** *** Time stamps in a log

    [stamped rate f d s t] reads the log [t] from left to right and keeps
    the frame count [f] answered by the last read, the delay [d] reported
    since that read and the time stamp [s] computed since.  It holds when
    every time stamp is computed from (frames of the last read + delay
    reported after it, [rate]) and every buffer delivered carries the
    frame count of the last read and the time stamp computed for it. *)
Fixpoint stamped (rate : Z) (f d s : option Z) (t : list step) : Prop :=
  match t with
  | [] => True
  | Called (snd_pcm_mmap_readn _ _ _) r :: t' =>
      stamped rate (Some (ret r)) None None t'
  | Called (snd_pcm_delay _ _) r :: t' =>
      stamped rate f (Some (out r)) None t'
  | Called (get_audio_sample_time n sr) r :: t' =>
      match f, d with
      | Some nframes, Some delay =>
          n = nframes + delay /\ sr = rate
          /\ stamped rate f d (Some (ret r)) t'
      | _, _ => False
      end
  | Called (obs_source_output_audio _ a) _ :: t' =>
      match f, s with
      | Some nframes, Some ts =>
          frames a = to_uint32 nframes /\ timestamp a = ts
          /\ stamped rate f d None t'
      | _, _ => False
      end
  | _ :: t' => stamped rate f d s t'
  end.

(** The buffers a log delivers to the host. *)
Definition delivered (t : list step) : list obs_source_audio :=
  flat_map (fun s => match s with
                     | Called (obs_source_output_audio _ a) _ => [a]
                     | _ => []
                     end) t.

(** ** A scripted device

    A world for examples: the library answers the calls with the replies
    of a script, in the order of the calls; a script that has run out
    answers 0, and a device whose states have run out is running. *)
Record script : Type := {
  replies : list reply;
  states : list snd_pcm_state_t
}.

Definition scripted_lib (c : call) (w : script) : reply * script :=
  match replies w with
  | [] => (Reply 0 0, w)
  | r :: rs => (r, {| replies := rs; states := states w |})
  end.

Definition scripted_state (p : Z) (w : script) : snd_pcm_state_t * script :=
  match states w with
  | [] => (SND_PCM_STATE_RUNNING, w)
  | s :: ss => (s, {| replies := replies w; states := ss |})
  end.

Definition format_width (f : snd_pcm_format_t) : Z :=
  match f with
  | SND_PCM_FORMAT_U8 => 8
  | SND_PCM_FORMAT_S16_LE => 16
  | SND_PCM_FORMAT_S32_LE => 32
  | SND_PCM_FORMAT_FLOAT_LE => 32
  | SND_PCM_FORMAT_OTHER _ => -22
  end.

Definition scripted : alsa_env script :=
  {| lib := scripted_lib;
     snd_pcm_state := scripted_state;
     snd_pcm_format_width := format_width;
     get_speaker_layout := fun c => c;
     snd_ctl_card_info_get_name :=
       fun i => if i =? 1 then "HDA Intel"%string else "USB Audio"%string;
     snd_pcm_info_get_name :=
       fun i => if i =? 1 then "ALC887 Analog"%string
                else "USB Audio"%string |}.

(** A stopped stereo session on the default device. *)
Definition stopped_session : alsa_data :=
  {| source := 1; thread := 0; event := 0; num_pollfds := 0;
     device := Some "default"%string; pcm := 0;
     pcm_format := SND_PCM_FORMAT_S16_LE; channels := 2;
     sample_rate := 48000; buffer_size := 0; period_size := 0 |}.

(** A running session: device 7 open, period of 1024 frames. *)
Definition running_session : alsa_data :=
  {| source := 1; thread := 9; event := 5; num_pollfds := 0;
     device := Some "default"%string; pcm := 7;
     pcm_format := SND_PCM_FORMAT_S16_LE; channels := 2;
     sample_rate := 48000; buffer_size := 4096; period_size := 1024 |}.

Definition play (rs : list reply) (ss : list snd_pcm_state_t) : script :=
  {| replies := rs; states := ss |}.

Definition ok : reply := Reply 0 0.

(** A negotiation in which every checked step succeeds: the hardware
    offers up to 2 s of buffer and periods from 1 ms, and answers [last]
    to the final [snd_pcm_hw_params]. *)
Definition negotiation_script (last : reply) : list reply :=
  [ ok; ok; ok; ok; Reply 0 44100;
    Reply 0 2000000; Reply 0 1000;
    Reply 0 500000; Reply 0 125000;
    Reply 0 6000; Reply 0 24000;
    last ].

(** A capture in which the first read of the first period fails with
    -32 ([-EPIPE]) while the device reports an overrun, and prepare then
    succeeds.  [bzalloc] hands out address 1000; the stop event is
    signalled after the first period. *)
Definition overrun_script : script :=
  play [ Reply 1000 0; ok;
         Reply EAGAIN 0; Reply 1 0;
         Reply (-32) 0; ok;
         Reply 0 100; Reply 5000 0; ok;
         Reply 1056 0;
         Reply 0 100; Reply 6000 0; ok;
         ok; ok ]
       [ SND_PCM_STATE_XRUN ].

(** A period whose first read answers [-EAGAIN] and whose second read
    answers the 1024 frames asked for. *)
Definition retry_script : script :=
  play [ Reply (- EAGAIN) 0; Reply 1024 0; Reply 0 100; Reply 5000 0; ok ] [].

(** [obs_audio] of [running_session] with the planes at 1000 and 3048. *)
Definition running_audio : obs_source_audio :=
  {| data := [1000; 3048]; frames := 0; speakers := 2;
     format := AUDIO_FORMAT_16BIT_PLANAR; samples_per_sec := 48000;
     timestamp := 0 |}.

(** A machine with three cards.  Card 0 cannot be opened.  Card 1 opens
    (control handle 21, card info 1); its device 0 cannot be queried, its
    device 1 can (pcm info 1).  Card 2 opens (control handle 22) but its
    card info cannot be read. *)
Definition cards_script : script :=
  play [ ok; ok;
         Reply 0 0; Reply (-2) 0;
         Reply 0 1; Reply 0 21; Reply 0 1;
           Reply 0 0; Reply (-2) 0;
           Reply 0 1; Reply 0 1; ok; ok; ok;
           Reply 0 (-1);
         ok;
         Reply 0 2; Reply 0 22; Reply (-19) 0; ok;
         Reply 0 (-1) ]
       [].

(** A log step that is not [obs_property_list_clear]. *)
Definition keeps_list (s : step) : Prop :=
  match s with
  | Called (obs_property_list_clear _) _ => False
  | _ => True
  end.

(** The place of a call in [alsa_set_hwparams], from 1. *)
Definition negotiation_rank (c : call) : nat :=
  match c with
  | snd_pcm_hw_params_any _ => 1
  | snd_pcm_hw_params_set_access _ _ => 2
  | snd_pcm_hw_params_set_format _ _ => 3
  | snd_pcm_hw_params_set_channels _ _ => 4
  | snd_pcm_hw_params_set_rate_near _ _ => 5
  | snd_pcm_hw_params_get_buffer_time_max _ => 6
  | snd_pcm_hw_params_get_period_time_min _ => 7
  | snd_pcm_hw_params_set_buffer_time_near _ _ => 8
  | snd_pcm_hw_params_set_period_time_near _ _ => 9
  | snd_pcm_hw_params_get_period_size _ => 10
  | snd_pcm_hw_params_get_buffer_size _ => 11
  | snd_pcm_hw_params _ => 12
  | _ => 0
  end.

(** The steps of [alsa_set_hwparams] that are followed by a [CHECK_RETURN]
    on their own result. *)
Definition is_checked (c : call) : bool :=
  match c with
  | snd_pcm_hw_params_any _
  | snd_pcm_hw_params_set_access _ _
  | snd_pcm_hw_params_set_format _ _
  | snd_pcm_hw_params_set_channels _ _
  | snd_pcm_hw_params_set_rate_near _ _
  | snd_pcm_hw_params_set_buffer_time_near _ _
  | snd_pcm_hw_params_set_period_time_near _ _ => true
  | _ => false
  end.

(** ** Further observers *)

(** [alsa_defaults]: the defaults registered for the two settings. *)
Definition alsa_defaults : obs_data :=
  {| pcm_name := "default"; force_mono := false |}.

(** The calls [alsa_terminate] stops a session with. *)
Definition is_teardown (c : call) : bool :=
  match c with
  | os_event_signal _ | pthread_join _ | os_event_destroy _
  | snd_pcm_close _ => true
  | _ => false
  end.

(** The calls of the read loop of the capture thread. *)
Definition is_reading (c : call) : bool :=
  match c with
  | snd_pcm_mmap_readn _ _ _ | snd_pcm_delay _ _
  | get_audio_sample_time _ _ | obs_source_output_audio _ _
  | snd_pcm_resume _ | sleep _ | snd_pcm_prepare _ => true
  | _ => false
  end.

(** The calls of the capture loop: those of the read loop, the poll of
    the stop event and the wait. *)
Definition is_capturing (c : call) : bool :=
  match c with
  | os_event_try _ | snd_pcm_wait _ _ => true
  | _ => is_reading c
  end.

(** A log step that is a call accepted by [f]; a state query is
    accepted when [q] says so. *)
Definition step_in (f : call -> bool) (q : bool) (s : step) : Prop :=
  match s with
  | Called c _ => f c = true
  | StateOf _ _ => q = true
  end.

(** A log step that is not a call accepted by [f]. *)
Definition step_not (f : call -> bool) (s : step) : Prop :=
  match s with
  | Called c _ => f c = false
  | StateOf _ _ => True
  end.

(** The control handles a log opens with success, and those it closes. *)
Definition opened (t : list step) : list Z :=
  flat_map (fun s => match s with
                     | Called (snd_ctl_open _ _) r =>
                         if ret r =? 0 then [out r] else []
                     | _ => []
                     end) t.

Definition closed (t : list step) : list Z :=
  flat_map (fun s => match s with
                     | Called (snd_ctl_close c) _ => [c]
                     | _ => []
                     end) t.

(** [sized pending t]: reading [t] from left to right, every
    [obs_property_list_add_string] comes after a [bzalloc] not yet used,
    whose size holds the name added and its terminating zero. *)
Fixpoint sized (pending : option Z) (t : list step) : Prop :=
  match t with
  | [] => True
  | Called (bzalloc n) _ :: t' => sized (Some n) t'
  | Called (obs_property_list_add_string _ name _) _ :: t' =>
      match pending with
      | Some n => strlen name + 1 <= n
      | None => False
      end
      /\ sized None t'
  | _ :: t' => sized pending t'
  end.



(** The calls [alsa_init] makes after opening the device. *)
Definition is_starting (c : call) : bool :=
  match c with
  | os_event_init _ _ | pthread_create _ => true
  | _ => is_negotiation c
  end.

(** A request of the negotiation that carries a setting of the session
    [d], or the access mode. *)
Definition asks_for (d : alsa_data) (s : step) : Prop :=
  match s with
  | Called (snd_pcm_hw_params_set_access _ a) _ =>
      a = SND_PCM_ACCESS_MMAP_NONINTERLEAVED
  | Called (snd_pcm_hw_params_set_format _ f) _ => f = pcm_format d
  | Called (snd_pcm_hw_params_set_channels _ c) _ => c = channels d
  | Called (snd_pcm_hw_params_set_rate_near _ v) _ => v = sample_rate d
  | _ => True
  end.

(** A log step that, when it delivers a buffer, delivers one that
    satisfies [P]. *)
Definition delivering (P : obs_source_audio -> Prop) (s : step) : Prop :=
  match s with
  | Called (obs_source_output_audio _ b) _ => P b
  | _ => True
  end.

(** Two buffers that differ at most in frame count and time stamp. *)
Definition same_header (a b : obs_source_audio) : Prop :=
  data b = data a /\ speakers b = speakers a /\ format b = format a
  /\ samples_per_sec b = samples_per_sec a.

Section Served.

Context {W : Type}.
Variable env : alsa_env W.

(** [served fs d a count delay w]: from [w], the reads of one period
    answer the frame counts [fs] one after the other, each positive and
    within what is left of the quota [count], and together they use the
    quota up. *)
Fixpoint served (fs : list Z) (d : alsa_data) (a : obs_source_audio)
    (count delay : Z) (w : W) : Prop :=
  match fs with
  | [] => count = 0
  | f :: rest =>
      let c := snd_pcm_mmap_readn (pcm d) (data a) count in
      let g := lib env (snd_pcm_delay (pcm d) delay) (snd (lib env c w)) in
      let t := lib env (get_audio_sample_time (f + out (fst g))
                          (sample_rate d)) (snd g) in
      let a' := set_frames_timestamp a (to_uint32 f) (ret (fst t)) in
      let h := lib env (obs_source_output_audio (source d) a') (snd t) in
      ret (fst (lib env c w)) = f /\ 0 < f <= count
      /\ served rest d a' (count - f) (out (fst g)) (snd h)
  end.

End Served.

(** A suspended device that never resumes: every call answers
    [-EAGAIN]. *)
Definition busy : alsa_env unit :=
  {| lib := fun _ w => (Reply (- EAGAIN) 0, w);
     snd_pcm_state := fun _ w => (SND_PCM_STATE_SUSPENDED, w);
     snd_pcm_format_width := format_width;
     get_speaker_layout := fun c => c;
     snd_ctl_card_info_get_name := fun _ => ""%string;
     snd_pcm_info_get_name := fun _ => ""%string |}.

(** A start that succeeds: the device opens as 7, the negotiation goes
    through, the stop event is 5 and the thread 9. *)
Definition start_script : script :=
  play (Reply 0 7 :: negotiation_script ok ++ [Reply 0 5; Reply 0 9]) [].

(** A start whose thread cannot be created: [pthread_create] answers 11
    and stores nothing. *)
Definition no_thread_script : script :=
  play (Reply 0 7 :: negotiation_script ok ++ [Reply 0 5; Reply 11 0]) [].

(** A negotiation in which the two getters of the time range fail and
    leave their variables as they were. *)
Definition blind_script : script :=
  play [ ok; ok; ok; ok; Reply 0 48000;
         Reply (-22) UINT_MAX; Reply (-22) 0;
         Reply 0 500000; Reply 0 125000;
         Reply 0 6000; Reply 0 24000; ok ] [].

(** A period of 1024 frames read in two parts, 400 and 624. *)
Definition partial_script : script :=
  play [ Reply 400 0; Reply 0 100; Reply 5000 0; ok;
         Reply 624 0; Reply 0 90; Reply 6000 0; ok ] [].

(** A period of 1024 frames read in two parts; the delay query after the
    second read fails with -32 and leaves the variable at the 100 stored
    after the first. *)
Definition stale_delay_script : script :=
  play [ Reply 400 0; Reply 0 100; Reply 5000 0; ok;
         Reply 624 0; Reply (-32) 100; Reply 6000 0; ok ] [].

(** A machine without sound cards. *)
Definition no_cards_script : script :=
  play [ ok; ok; Reply 0 (-1) ] [].

(** A machine whose card 0 opens (control handle 21, card info 1) and
    then cannot list its devices. *)
Definition no_devices_script : script :=
  play [ Reply 0 0; Reply 0 21; Reply 0 1; Reply (-19) 0; ok;
         Reply 0 (-1) ] [].

(** ** Properties of runs *)

Unset Implicit Arguments.

Section RunLemmas.

Context {W : Type}.
Variable env : alsa_env W.

Lemma prepend_prepend (A : Type) (t1 t2 : list step) (o : outcome W A) :
  prepend t1 (prepend t2 o) = prepend (t1 ++ t2) o.
Proof. unfold prepend; cbn. now rewrite app_assoc. Qed.

Lemma bind_Return (A B : Type) (a : A) (k : A -> M W B) (w : W) :
  bind (Return a) k w = k a w.
Proof. unfold bind, Return; cbn. now destruct (k a w). Qed.

Lemma bind_invoke (B : Type) (c : call) (k : reply -> M W B) (w : W)
    (r : reply) (w' : W) :
  lib env c w = (r, w') ->
  bind (invoke env c) k w = prepend [Called c r] (k r w').
Proof. intros E. unfold bind, invoke. now rewrite E. Qed.

Lemma bind_query_state (B : Type) (p : Z) (k : snd_pcm_state_t -> M W B)
    (w : W) (s : snd_pcm_state_t) (w' : W) :
  snd_pcm_state env p w = (s, w') ->
  bind (query_state env p) k w = prepend [StateOf p s] (k s w').
Proof. intros E. unfold bind, query_state. now rewrite E. Qed.

Lemma bind_run (A B : Type) (m : M W A) (k : A -> M W B) (w : W)
    (v : option A) (t : list step) (w' : W) :
  m w = {| value := v; trace := t; world := w' |} ->
  bind m k w = match v with
               | Some a => prepend t (k a w')
               | None => {| value := None; trace := t; world := w' |}
               end.
Proof. intros E. unfold bind. rewrite E. now destruct v. Qed.

Lemma bind_trace (A B : Type) (m : M W A) (k : A -> M W B) (w : W) :
  trace (bind m k w)
  = trace (m w) ++ match value (m w) with
                   | Some a => trace (k a (world (m w)))
                   | None => []
                   end.
Proof.
  unfold bind. destruct (value (m w)); cbn; [reflexivity|].
  now rewrite app_nil_r.
Qed.

End RunLemmas.

Lemma calls_of_app (t1 t2 : list step) :
  calls_of (t1 ++ t2) = calls_of t1 ++ calls_of t2.
Proof. apply flat_map_app. Qed.

(** Takes the next library call of the goal, names its answer and the
    world after it. *)
Ltac next_call :=
  match goal with
  | |- context [lib ?e ?c ?w] =>
      is_var w;
      let r := fresh "r" in
      let w' := fresh "w" in
      let E := fresh "E" in
      destruct (lib e c w) as [r w'] eqn:E; cbn
  end.

(** Runs the call at the head of a sequence: its answer [r] and the world
    after it are named, and the call is logged in front of the rest. *)
Ltac run_call :=
  match goal with
  | |- context [bind (invoke ?e ?c) ?k ?w] =>
      let r := fresh "r" in
      let w' := fresh "w" in
      let E := fresh "E" in
      destruct (lib e c w) as [r w'] eqn:E;
      rewrite (bind_invoke e _ c k w r w' E); cbv beta iota zeta
  end.

(** Splits on a [CHECK_RETURN]. *)
Ltac check_return :=
  match goal with
  | |- context [if ret ?r <? 0 then _ else _] =>
      is_var r;
      let L := fresh "L" in
      destruct (ret r <? 0) eqn:L; cbv beta iota zeta
  end.

(** Runs [alsa_set_hwparams] to each of its ends. *)
Ltac negotiate :=
  unfold alsa_set_hwparams; cbv beta iota zeta;
  repeat (run_call; try check_return);
  cbn [prepend Return trace value world app fst snd].

(** ** Session life cycle *)

Section LifeCycle.

Context {W : Type}.
Variable env : alsa_env W.

Lemma alsa_terminate_null (d : alsa_data) (w : W) :
  thread d = 0 -> pcm d = 0 ->
  alsa_terminate env d w = {| value := Some d; trace := []; world := w |}.
Proof.
  intros Ht Hp.
  unfold alsa_terminate. rewrite Ht. cbn [Z.eqb].
  rewrite bind_Return, Hp. reflexivity.
Qed.

(** C8. Stopping a session that is already stopped (thread handle and
    device handle both null) does nothing: no signal, join, destroy or
    close is issued, the world is untouched, and the session comes back
    as it was, so both handles are still null. *)
Theorem alsa_terminate_stopped_noop (d : alsa_data) (w : W) :
  thread d = 0 -> pcm d = 0 ->
  alsa_terminate env d w = {| value := Some d; trace := []; world := w |}.
Proof.
  intros Ht Hp. unfold alsa_terminate.
  rewrite Ht. cbn [Z.eqb]. rewrite bind_Return.
  rewrite Hp. cbn [Z.eqb]. reflexivity.
Qed.

(** Whatever the session, [alsa_terminate] leaves both handles null. *)
Lemma alsa_terminate_clears (d d' : alsa_data) (w : W) :
  value (alsa_terminate env d w) = Some d' ->
  thread d' = 0 /\ pcm d' = 0.
Proof.
  unfold alsa_terminate, bind, invoke, Return.
  destruct (thread d =? 0) eqn:Ht; cbn.
  - apply Z.eqb_eq in Ht.
    destruct (pcm d =? 0) eqn:Hp; cbn.
    + apply Z.eqb_eq in Hp. intros [= <-]. auto.
    + next_call. intros [= <-]. cbn. auto.
  - repeat next_call.
    destruct (pcm d =? 0) eqn:Hp; cbn.
    + apply Z.eqb_eq in Hp. intros [= <-]. cbn. auto.
    + next_call. intros [= <-]. cbn. auto.
Qed.

(** [alsa_terminate] is idempotent: stopping twice is stopping once. *)
Lemma alsa_terminate_idempotent (d d' : alsa_data) (w : W) :
  value (alsa_terminate env d w) = Some d' ->
  forall w', alsa_terminate env d' w'
             = {| value := Some d'; trace := []; world := w' |}.
Proof.
  intros H w'. apply alsa_terminate_clears in H as [Ht Hp].
  now apply alsa_terminate_null.
Qed.

(** [alsa_terminate] always returns. *)
Lemma alsa_terminate_returns (d : alsa_data) (w : W) :
  exists d', value (alsa_terminate env d w) = Some d'.
Proof.
  unfold alsa_terminate, bind, invoke, Return.
  destruct (thread d =? 0); cbn; repeat next_call;
    destruct (pcm d =? 0); cbn; repeat next_call; eauto.
Qed.

(** C10. The destroy hook called with the null session pointer returns
    at once: it calls nothing (no terminate, no [bfree]) and leaves the
    world as it was. *)
Theorem alsa_destroy_null_noop (w : W) :
  alsa_destroy env None w = {| value := Some tt; trace := []; world := w |}.
Proof. reflexivity. Qed.

End LifeCycle.

(** A stopped session, stopped again. *)
Lemma alsa_terminate_stopped_noop_witness :
  alsa_terminate scripted stopped_session (play [Reply (-1) 0] [])
  = {| value := Some stopped_session; trace := [];
       world := play [Reply (-1) 0] [] |}.
Proof.
  apply (alsa_terminate_stopped_noop scripted stopped_session
           (play [Reply (-1) 0] [])); reflexivity.
Defined.

(** ** Format negotiation *)

Section Negotiation.

Context {W : Type}.
Variable env : alsa_env W.

Lemma OBS_MIN_le_r (a b : Z) : OBS_MIN a b <= b.
Proof. unfold OBS_MIN. destruct (Z.ltb_spec a b); lia. Qed.

Lemma OBS_MAX_ge_r (a b : Z) : b <= OBS_MAX a b.
Proof. unfold OBS_MAX. rewrite Z.gtb_ltb. destruct (Z.ltb_spec b a); lia. Qed.

(** [alsa_set_hwparams] always returns, calls nothing but the
    hardware-parameter interface, and leaves the handles of the session
    alone. *)
Lemma alsa_set_hwparams_frame (p : Z) (d : alsa_data) (w : W) :
  Forall negotiation_step (trace (alsa_set_hwparams env p d w))
  /\ exists h d', value (alsa_set_hwparams env p d w) = Some (h, d')
                  /\ pcm d' = pcm d /\ thread d' = thread d
                  /\ event d' = event d.
Proof.
  negotiate; (split; [repeat constructor | eauto 10]).
Qed.

(** C5. Whatever capability range the hardware reports, every buffer
    time the negotiator asks the device to commit is at most 500,000
    microseconds, and every period time it asks to commit is at least a
    quarter of the buffer time it asked for. *)
Theorem negotiated_times_bounded (p : Z) (d : alsa_data) (w : W) :
  let t := trace (alsa_set_hwparams env p d w) in
  (forall q b r,
      In (Called (snd_pcm_hw_params_set_buffer_time_near q b) r) t ->
      b <= 500000)
  /\ (forall q pt r,
         In (Called (snd_pcm_hw_params_set_period_time_near q pt) r) t ->
         exists b r',
           In (Called (snd_pcm_hw_params_set_buffer_time_near q b) r') t
           /\ b / 4 <= pt).
Proof.
  negotiate;
    (split; intros q v r' HIn; cbn [In] in HIn;
     repeat (destruct HIn as [HIn | HIn]; [try discriminate HIn|]);
     try contradiction;
     injection HIn as <- <- <-).
  all: first
    [ apply OBS_MIN_le_r
    | eexists _, _; split; [cbn [In]; do 7 right; left; reflexivity|];
      apply OBS_MAX_ge_r ].
Qed.

(** The calls are made in the order of the source, without gaps. *)
Lemma alsa_set_hwparams_order (p : Z) (d : alsa_data) (w : W) :
  let t := trace (alsa_set_hwparams env p d w) in
  map negotiation_rank (calls_of t) = seq 1 (List.length t).
Proof.
  negotiate; reflexivity.
Qed.

(** A checked step that fails ends the negotiation with its error. *)
Lemma alsa_set_hwparams_checked (p : Z) (d : alsa_data) (w : W)
    (c : call) (r : reply) :
  let o := alsa_set_hwparams env p d w in
  In (Called c r) (trace o) -> is_checked c = true -> ret r < 0 ->
  option_map fst (value o) = Some (ret r).
Proof.
  negotiate;
    intros HIn Hc Hr; cbn [In] in HIn;
    repeat match goal with
           | H : (ret _ <? 0) = false |- _ => apply Z.ltb_ge in H
           end;
    repeat (destruct HIn as [HIn | HIn];
            [injection HIn as <- <-;
             first [discriminate Hc | reflexivity | lia]|]);
    contradiction.
Qed.

(** The final step is not checked: once [snd_pcm_hw_params] is reached,
    the negotiation returns 0 whatever that call answered. *)
Lemma alsa_set_hwparams_ignores_final (p : Z) (d : alsa_data) (w : W)
    (q : Z) (r : reply) :
  let o := alsa_set_hwparams env p d w in
  In (Called (snd_pcm_hw_params q) r) (trace o) ->
  option_map fst (value o) = Some 0.
Proof.
  negotiate;
    intros HIn; cbn [In] in HIn;
    repeat (destruct HIn as [HIn | HIn]; [try discriminate HIn|]);
    try contradiction; reflexivity.
Qed.

End Negotiation.

(** C5 on the scripted device: the hardware offers a buffer of up to 2 s
    and periods from 1 ms; 500,000 and 125,000 are asked for. *)
Lemma negotiated_times_bounded_witness :
  let t := trace (alsa_set_hwparams scripted 7 stopped_session
                    (play (negotiation_script ok) [])) in
  In (Called (snd_pcm_hw_params_set_buffer_time_near 7 500000)
        (Reply 0 500000)) t
  /\ In (Called (snd_pcm_hw_params_set_period_time_near 7 125000)
           (Reply 0 125000)) t
  /\ 500000 <= 500000
  /\ exists b r',
       In (Called (snd_pcm_hw_params_set_buffer_time_near 7 b) r') t
       /\ b / 4 <= 125000.
Proof.
  pose proof (negotiated_times_bounded scripted 7 stopped_session
                (play (negotiation_script ok) [])) as [Hb Hp].
  assert (H1 : In (Called (snd_pcm_hw_params_set_buffer_time_near 7 500000)
                     (Reply 0 500000))
                  (trace (alsa_set_hwparams scripted 7 stopped_session
                            (play (negotiation_script ok) []))))
    by (cbn; do 7 right; left; reflexivity).
  assert (H2 : In (Called (snd_pcm_hw_params_set_period_time_near 7 125000)
                     (Reply 0 125000))
                  (trace (alsa_set_hwparams scripted 7 stopped_session
                            (play (negotiation_script ok) []))))
    by (cbn; do 8 right; left; reflexivity).
  split; [exact H1|]. split; [exact H2|].
  split; [exact (Hb _ _ _ H1) | exact (Hp _ _ _ H2)].
Defined.

(** C2. A device on which every step up to the period time succeeds and
    the final [snd_pcm_hw_params] fails with -22 ([-EINVAL]): the call is
    made, its error is dropped, and the negotiation returns 0. *)
Theorem alsa_set_hwparams_final_step_unchecked :
  let o := alsa_set_hwparams scripted 7 stopped_session
             (play (negotiation_script (Reply (-22) 0)) []) in
  last (trace o) (StateOf 0 SND_PCM_STATE_OPEN)
  = Called (snd_pcm_hw_params 7) (Reply (-22) 0)
  /\ option_map fst (value o) = Some 0.
Proof. split; reflexivity. Qed.

(** ** Starting a session *)

Section Start.

Context {W : Type}.
Variable env : alsa_env W.

(** What a run of [alsa_init] is, step by step. *)
Lemma alsa_init_unfold (d : alsa_data) (w : W) :
  alsa_init env d w
  = let ro := lib env (snd_pcm_open (pcm d) (device d)
                         SND_PCM_STREAM_CAPTURE SND_PCM_NONBLOCK) w in
    let d1 := set_pcm d (out (fst ro)) in
    prepend [Called (snd_pcm_open (pcm d) (device d)
                       SND_PCM_STREAM_CAPTURE SND_PCM_NONBLOCK) (fst ro)]
      (if ret (fst ro) <? 0
       then Return (false, d1) (snd ro)
       else bind (alsa_set_hwparams env (pcm d1) d1)
              (fun hd =>
                 let d := snd hd in
                 if fst hd <? 0 then Return (false, d) else
                 bind (invoke env (os_event_init (event d)
                                     OS_EVENT_TYPE_MANUAL))
                   (fun r =>
                      let d := set_event d (out r) in
                      if negb (ret r =? 0) then Return (false, d) else
                      bind (invoke env (pthread_create (thread d)))
                        (fun r =>
                           let d := set_thread d (out r) in
                           if negb (ret r =? 0) then Return (false, d)
                           else Return (true, d))))
              (snd ro)).
Proof.
  unfold alsa_init at 1.
  destruct (lib env (snd_pcm_open (pcm d) (device d)
                       SND_PCM_STREAM_CAPTURE SND_PCM_NONBLOCK) w)
    as [ro w1] eqn:E.
  rewrite (bind_invoke env _ _ _ w _ _ E). cbn [fst snd].
  destruct (ret ro <? 0); reflexivity.
Qed.

(** C1, as the code has it. After a failed start of a stopped session:
    the device handle is whatever [snd_pcm_open] stored, and [alsa_init]
    never closes the device, so after a failure at negotiation, at the
    creation of the stop event or at the creation of the thread the
    device is still open and its handle set; the thread handle is null,
    unless [pthread_create] was reached, failed, and left a value in
    it. *)
Theorem alsa_init_failure_keeps_device (d d' : alsa_data) (w : W) :
  thread d = 0 -> pcm d = 0 ->
  let o := alsa_init env d w in
  value o = Some (false, d') ->
  pcm d' = out (fst (lib env (snd_pcm_open 0 (device d)
                                SND_PCM_STREAM_CAPTURE SND_PCM_NONBLOCK) w))
  /\ (forall p r, ~ In (Called (snd_pcm_close p) r) (trace o))
  /\ (thread d' = 0
      \/ exists r, In (Called (pthread_create 0) r) (trace o)
                   /\ ret r <> 0 /\ thread d' = out r).
Proof.
  intros Ht Hp o. subst o. rewrite alsa_init_unfold, Hp.
  destruct (lib env (snd_pcm_open 0 (device d) SND_PCM_STREAM_CAPTURE
                       SND_PCM_NONBLOCK) w) as [ro w1].
  cbv beta iota zeta. cbn [fst snd].
  destruct (ret ro <? 0).
  - cbn [prepend Return value trace world app]. intros [= <-].
    split; [reflexivity|]. split; [|now left].
    intros p r [H | []]. discriminate H.
  - match goal with
    | |- context [bind (alsa_set_hwparams env ?p ?d1) ?k ?w0] =>
        destruct (alsa_set_hwparams_frame env p d1 w0)
          as (HF & h & d2 & Hv & Hpcm & Hthr & Hev);
        destruct (alsa_set_hwparams env p d1 w0) as [v t w2] eqn:Eh;
        rewrite (bind_run _ _ _ k w0 _ _ _ Eh)
    end.
    cbn [value trace] in Hv, HF. subst v.
    cbv beta iota zeta. cbn [fst snd].
    cbn [pcm thread event set_pcm] in Hpcm, Hthr, Hev.
    assert (Hclose : forall p r, ~ In (Called (snd_pcm_close p) r) t).
    { intros p r H. rewrite Forall_forall in HF. apply HF in H.
      discriminate H. }
    assert (Hd2 : thread d2 = 0) by (rewrite Hthr; exact Ht).
    destruct (h <? 0).
    + cbn [prepend Return value trace world app]. intros [= <-].
      split; [exact Hpcm|]. split; [|now left].
      intros p r [H | H]; [discriminate H|].
      rewrite app_nil_r in H. exact (Hclose p r H).
    + run_call. destruct (ret r =? 0); cbn [negb]; cbv iota.
      * run_call. cbn [thread set_event] in *.
        destruct (ret r0 =? 0) eqn:Ert; cbn [negb]; cbv iota;
          cbn [prepend Return value trace world app]; [discriminate|].
        intros [= <-]. cbn [pcm thread set_thread set_event].
        split; [exact Hpcm|]. split.
        { intros p r' [H | H]; [discriminate H|].
          apply in_app_or in H as [H | H]; [exact (Hclose p r' H)|].
          destruct H as [H | [H | []]]; discriminate H. }
        right. exists r0. rewrite Hd2. split; [|split].
        { right. apply in_or_app. right. right. left. reflexivity. }
        { apply Z.eqb_neq in Ert. exact Ert. }
        reflexivity.
      * cbn [prepend Return value trace world app]. intros [= <-].
        cbn [pcm thread set_event].
        split; [exact Hpcm|]. split; [|now left].
        intros p r' [H | H]; [discriminate H|].
        apply in_app_or in H as [H | H]; [exact (Hclose p r' H)|].
        destruct H as [H | []]; discriminate H.
Qed.

End Start.

(** C1 as stated fails: the device opens (handle 7), the first step of
    the negotiation fails, [alsa_init] reports failure and leaves the
    device handle set while the thread handle is null. *)
Lemma alsa_init_failure_leaves_device_handle :
  exists d',
    value (alsa_init scripted stopped_session
             (play [Reply 0 7; Reply (-1) 0] []))
    = Some (false, d')
    /\ ~ (pcm d' = 0 /\ thread d' = 0)
    /\ pcm d' = 7 /\ thread d' = 0.
Proof.
  eexists. split; [reflexivity|]. cbn.
  split; [intros [H _]; discriminate H | split; reflexivity].
Qed.

(** The amended C1 on the same run. *)
Lemma alsa_init_failure_keeps_device_witness :
  let w := play [Reply 0 7; Reply (-1) 0] [] in
  let o := alsa_init scripted stopped_session w in
  let d' := set_pcm stopped_session 7 in
  pcm d' = 7
  /\ (forall p r, ~ In (Called (snd_pcm_close p) r) (trace o))
  /\ (thread d' = 0
      \/ exists r, In (Called (pthread_create 0) r) (trace o)
                   /\ ret r <> 0 /\ thread d' = out r).
Proof.
  exact (alsa_init_failure_keeps_device scripted stopped_session
           (set_pcm stopped_session 7)
           (play [Reply 0 7; Reply (-1) 0] [])
           eq_refl eq_refl eq_refl).
Defined.

(** ** Fault recovery *)

Section Recovery.

Context {W : Type}.
Variable env : alsa_env W.

(** The resume loop ends with the first answer that is not [-EAGAIN]. *)
Lemma resume_loop_retried (p : Z) (n : nat) :
  forall (fuel : nat) (w : W),
    retried env n p w -> (n < fuel)%nat ->
    let o := resume_loop env fuel p w in
    value o = Some (ret (fst (resumed env n p w)))
    /\ world o = snd (resumed env n p w)
    /\ calls_of (trace o) = retry_calls n p ++ [snd_pcm_resume p].
Proof.
  induction n as [|n IH]; intros fuel w Hr Hlt;
    (destruct fuel as [|fuel]; [lia|]);
    cbn [retried resumed] in *; cbn [resume_loop]; cbv zeta.
  - run_call. cbn [fst snd] in *.
    apply Z.eqb_neq in Hr. rewrite Hr.
    cbn. auto.
  - destruct Hr as [Hr Hk]. unfold after_retry in *.
    run_call. cbn [fst snd] in *.
    rewrite Hr, Z.eqb_refl.
    run_call. cbn [fst snd] in *.
    destruct (IH fuel w1 Hk ltac:(lia)) as (Hv & Hw & Hc).
    cbn [prepend value world trace]. repeat split; trivial.
    rewrite !calls_of_app, Hc. reflexivity.
Qed.

(** The prepare step: one call, whose error is the result. *)
Lemma xrun_case_run (p : Z) (w : W) :
  let rp := fst (lib env (snd_pcm_prepare p) w) in
  let o := xrun_case env p w in
  value o = Some (if ret rp <? 0 then ret rp else 0)
  /\ calls_of (trace o) = [snd_pcm_prepare p].
Proof.
  unfold xrun_case. run_call. cbn [fst].
  destruct (ret r <? 0); cbn; auto.
Qed.

(** Recovery logs nothing but its own calls. *)
Lemma resume_loop_steps (p : Z) (fuel : nat) :
  forall w, Forall recovery_step (trace (resume_loop env fuel p w)).
Proof.
  induction fuel as [|fuel IH]; intros w; cbn [resume_loop];
    [constructor|].
  run_call. destruct (ret r =? - EAGAIN); cbv iota.
  - run_call. cbn [prepend trace app].
    repeat (apply Forall_cons; [exact I|]). apply IH.
  - cbn. repeat constructor.
Qed.

Lemma xrun_case_steps (p : Z) (w : W) :
  Forall recovery_step (trace (xrun_case env p w)).
Proof.
  unfold xrun_case. run_call.
  destruct (ret r <? 0); cbn; repeat constructor.
Qed.

Lemma alsa_handle_xrun_steps (fuel : nat) (p : Z) (w : W) :
  Forall recovery_step (trace (alsa_handle_xrun env fuel p w)).
Proof.
  unfold alsa_handle_xrun.
  destruct (snd_pcm_state env p w) as [s w0] eqn:E.
  rewrite (bind_query_state env _ _ _ w _ _ E). cbn [prepend trace app].
  apply Forall_cons; [exact I|].
  destruct s; try (cbn; constructor); try apply xrun_case_steps.
  rewrite bind_trace. apply Forall_app. split; [apply resume_loop_steps|].
  destruct (value (resume_loop env fuel p w0)) as [r|]; [|constructor].
  destruct (r >=? 0); [constructor | apply xrun_case_steps].
Qed.

(** C3, as the code has it. Recovery asks the device for its state.
    Suspended: resume is called, with a pause of one second after every
    [-EAGAIN], until it answers something else; when that answer is a
    success recovery returns 0 and prepare is not called; when it is an
    error prepare is called and decides the result. XRUN: prepare alone
    is called and decides the result. Any other state: -1, neither
    resume nor prepare is called. *)
Theorem alsa_handle_xrun_classification (p : Z) (w : W) (fuel n : nat) :
  let s := fst (snd_pcm_state env p w) in
  let w0 := snd (snd_pcm_state env p w) in
  (s = SND_PCM_STATE_SUSPENDED -> retried env n p w0 /\ (n < fuel)%nat) ->
  let o := alsa_handle_xrun env fuel p w in
  match s with
  | SND_PCM_STATE_SUSPENDED =>
      let r := fst (resumed env n p w0) in
      let w1 := snd (resumed env n p w0) in
      if ret r >=? 0
      then calls_of (trace o) = retry_calls n p ++ [snd_pcm_resume p]
           /\ value o = Some 0
      else let rp := fst (lib env (snd_pcm_prepare p) w1) in
           calls_of (trace o)
           = retry_calls n p ++ [snd_pcm_resume p; snd_pcm_prepare p]
           /\ value o = Some (if ret rp <? 0 then ret rp else 0)
  | SND_PCM_STATE_XRUN =>
      let rp := fst (lib env (snd_pcm_prepare p) w0) in
      calls_of (trace o) = [snd_pcm_prepare p]
      /\ value o = Some (if ret rp <? 0 then ret rp else 0)
  | _ => calls_of (trace o) = [] /\ value o = Some (-1)
  end.
Proof.
  unfold alsa_handle_xrun.
  destruct (snd_pcm_state env p w) as [s w0] eqn:E.
  rewrite (bind_query_state env _ _ _ w _ _ E). cbn [fst snd].
  intros H.
  destruct s; cbn [prepend trace value calls_of flat_map app];
    try (split; reflexivity);
    try (destruct (xrun_case_run p w0) as [Hv Hc]; split;
         [exact Hc | exact Hv]).
  destruct (H eq_refl) as [Hr Hlt].
  destruct (resume_loop_retried p n fuel w0 Hr Hlt) as (Hv & Hw & Hc).
  unfold bind.
  destruct (resume_loop env fuel p w0) as [v t w1].
  cbn [value trace world] in *. subst v w1.
  destruct (ret (fst (resumed env n p w0)) >=? 0);
    cbn [value trace Return].
  - rewrite app_nil_r. auto.
  - destruct (xrun_case_run p (snd (resumed env n p w0))) as [Hv' Hc'].
    split; [|exact Hv'].
    rewrite calls_of_app, Hc, Hc', <- app_assoc. reflexivity.
Qed.

End Recovery.

(** C3 as stated fails: the device is suspended and the first resume
    succeeds; recovery returns success after that single call, and
    prepare is not invoked. *)
Lemma alsa_handle_xrun_resume_without_prepare :
  let o := alsa_handle_xrun scripted 5 7
             (play [ok] [SND_PCM_STATE_SUSPENDED]) in
  value o = Some 0
  /\ calls_of (trace o) = [snd_pcm_resume 7]
  /\ ~ In (snd_pcm_prepare 7) (calls_of (trace o)).
Proof.
  cbn. repeat split. intros [H | []]. discriminate H.
Qed.

(** The amended C3 on a suspended device whose first resume answers
    [-EAGAIN] and whose second fails with -38: one pause, then prepare. *)
Lemma alsa_handle_xrun_classification_witness :
  let o := alsa_handle_xrun scripted 5 7
             (play [Reply (-11) 0; ok; Reply (-38) 0; ok]
                [SND_PCM_STATE_SUSPENDED]) in
  calls_of (trace o)
  = [snd_pcm_resume 7; sleep 1; snd_pcm_resume 7; snd_pcm_prepare 7]
  /\ value o = Some 0.
Proof.
  refine (alsa_handle_xrun_classification scripted 7
            (play [Reply (-11) 0; ok; Reply (-38) 0; ok]
               [SND_PCM_STATE_SUSPENDED]) 5 1 _).
  intros _. split; [split; [reflexivity | discriminate] | lia].
Defined.

(** ** Capture thread *)

Section Capture.

Context {W : Type}.
Variable env : alsa_env W.

(** The calls of recovery leave the reading of time stamps where it
    was. *)
Lemma stamped_recovery (rate : Z) (t t' : list step) :
  Forall recovery_step t ->
  forall f d s, stamped rate f d s t' -> stamped rate f d s (t ++ t').
Proof.
  induction 1 as [|x t Hx _ IH]; intros f d s Ht'; [exact Ht'|].
  cbn [app]. destruct x as [c r|p st]; [|cbn; auto].
  destruct c; try contradiction; cbn; auto.
Qed.

(** Runs a call to [alsa_handle_xrun] and skips what it logs. *)
Ltac run_recovery :=
  match goal with
  | |- context [bind (alsa_handle_xrun ?e ?fuel ?p) ?k ?w] =>
      let v := fresh "v" in
      let tx := fresh "tx" in
      let w' := fresh "w" in
      let E := fresh "E" in
      let Hx := fresh "Hx" in
      pose proof (alsa_handle_xrun_steps e fuel p w) as Hx;
      destruct (alsa_handle_xrun e fuel p w) as [v tx w'] eqn:E;
      rewrite (bind_run _ _ _ k w _ _ _ E);
      cbn [trace] in Hx;
      destruct v as [v|];
      cbv beta iota zeta; cbn [prepend trace];
      rewrite <- ?app_assoc; (apply stamped_recovery; [exact Hx|])
  end.

Lemma read_loop_stamped (d : alsa_data) (t' : list step) :
  (forall f dl s, stamped (sample_rate d) f dl s t') ->
  forall fuel a count delay w f dl s,
    stamped (sample_rate d) f dl s
      (trace (read_loop env fuel d a count delay w) ++ t').
Proof.
  intros Ht'.
  induction fuel as [|fuel IH]; intros a count delay w f dl s;
    cbn [read_loop]; [apply Ht'|].
  destruct (count >? 0); cbv beta iota zeta; [|apply Ht'].
  run_call. cbn [prepend trace app stamped].
  destruct (ret r =? - EAGAIN); [apply IH|].
  assert (Hdeliver :
    forall wx,
      stamped (sample_rate d) (Some (ret r)) None None
        (trace
           (bind (invoke env (snd_pcm_delay (pcm d) delay))
              (fun g =>
                 bind (invoke env (get_audio_sample_time (ret r + out g)
                                     (sample_rate d)))
                   (fun t =>
                      bind (invoke env
                              (obs_source_output_audio (source d)
                                 (set_frames_timestamp a (to_uint32 (ret r))
                                    (ret t))))
                        (fun _ =>
                           read_loop env fuel d
                             (set_frames_timestamp a (to_uint32 (ret r))
                                (ret t))
                             (to_ulong (count - ret r)) (out g)))) wx)
         ++ t')).
  { intros wx. do 3 run_call. cbn [prepend trace app stamped].
    split; [reflexivity|]. split; [reflexivity|].
    cbn [frames timestamp set_frames_timestamp].
    split; [reflexivity|]. split; [reflexivity|]. apply IH. }
  destruct (ret r <? 0); [|apply Hdeliver].
  run_recovery; [|apply Ht'].
  destruct (v <? 0); [apply Ht' | apply Hdeliver].
Qed.

Lemma capture_loop_stamped (d : alsa_data) (t' : list step) :
  (forall f dl s, stamped (sample_rate d) f dl s t') ->
  forall fuel a w f dl s,
    stamped (sample_rate d) f dl s
      (trace (capture_loop env fuel d a w) ++ t').
Proof.
  intros Ht'.
  induction fuel as [|fuel IH]; intros a w f dl s;
    cbn [capture_loop]; [apply Ht'|].
  run_call. cbn [prepend trace app stamped].
  destruct (negb (ret r =? EAGAIN)); [apply Ht'|].
  run_call. cbn [prepend trace app stamped].
  destruct ((ret r0 =? 0) || (ret r0 =? - EAGAIN)); [apply IH|].
  assert (Hreading :
    forall wx f dl s,
      stamped (sample_rate d) f dl s
        (trace
           (bind (read_loop env (S fuel) d a (period_size d) 0)
              (fun x =>
                 match fst x with
                 | goto_exit => Return tt
                 | period_done => capture_loop env fuel d (snd x)
                 end) wx)
         ++ t')).
  { intros wx f1 dl1 s1. rewrite bind_trace, <- app_assoc.
    apply read_loop_stamped. intros f2 dl2 s2.
    destruct (value (read_loop env (S fuel) d a (period_size d) 0 wx))
      as [[[] a']|]; cbn [fst snd]; [apply IH | apply Ht' | apply Ht']. }
  destruct (ret r0 <? 0); [|apply Hreading].
  run_recovery; [|apply Ht'].
  destruct (v <? 0); [apply Ht' | apply Hreading].
Qed.

(** In every run of the capture thread, whatever the device answers:
    each time stamp is asked of [get_audio_sample_time] for (frames
    answered by the last read + content of the delay variable after the
    query that followed that read, sample rate of the session), and each
    buffer handed to the host carries the frame count of that read and
    the time stamp so computed. *)
Lemma alsa_thread_stamped (fuel : nat) (d : alsa_data) (w : W) :
  stamped (sample_rate d) None None None
    (trace (alsa_thread env fuel d w)).
Proof.
  unfold alsa_thread. cbv zeta.
  do 2 run_call. cbn [prepend trace app stamped].
  destruct (ret r0 <? 0); [exact I|].
  rewrite bind_trace.
  apply capture_loop_stamped. intros f dl s.
  destruct (value (capture_loop env fuel d _ w1)); [|exact I].
  run_call. cbn. exact I.
Qed.

(** The reading of time stamps is not satisfied by any log: here the
    delay was left out of the sum. *)
Lemma stamped_rejects_uncompensated :
  ~ stamped 48000 None None None
      [ Called (snd_pcm_mmap_readn 7 [1000; 3048] 1024) (Reply 1024 0);
        Called (snd_pcm_delay 7 0) (Reply 0 100);
        Called (get_audio_sample_time 1024 48000) (Reply 5000 0) ].
Proof. cbn. intros [H _]. discriminate H. Qed.

(** A read that answers frames, all of the quota or part of it: the
    delay is queried, the time stamp is asked for (frames + delay, rate),
    one buffer with these frames and this time stamp is delivered, and
    the loop goes on with the frames taken off the quota. *)
Lemma read_loop_delivers (fuel : nat) (d : alsa_data)
    (a : obs_source_audio) (count delay : Z) (w : W) :
  let c := snd_pcm_mmap_readn (pcm d) (data a) count in
  let nframes := ret (fst (lib env c w)) in
  let g := lib env (snd_pcm_delay (pcm d) delay) (snd (lib env c w)) in
  let t := lib env (get_audio_sample_time (nframes + out (fst g))
                      (sample_rate d)) (snd g) in
  let a' := set_frames_timestamp a (to_uint32 nframes) (ret (fst t)) in
  let h := lib env (obs_source_output_audio (source d) a') (snd t) in
  0 < count -> 0 <= nframes ->
  read_loop env (S fuel) d a count delay w
  = prepend [Called c (fst (lib env c w));
             Called (snd_pcm_delay (pcm d) delay) (fst g);
             Called (get_audio_sample_time (nframes + out (fst g))
                       (sample_rate d)) (fst t);
             Called (obs_source_output_audio (source d) a') (fst h)]
      (read_loop env fuel d a' (to_ulong (count - nframes)) (out (fst g))
         (snd h)).
Proof.
  intros c nframes g t a' h Hc Hr.
  subst c nframes g t a' h. cbn [read_loop].
  destruct (Z.gtb_spec count 0) as [_|]; [|lia].
  run_call. cbn [fst snd] in *.
  destruct (Z.eqb_spec (ret r) (- EAGAIN)) as [Hneg|_];
    [unfold EAGAIN in Hneg; lia|].
  destruct (Z.ltb_spec (ret r) 0) as [|_]; [lia|].
  do 3 (run_call; cbn [fst snd]).
  now rewrite !prepend_prepend.
Qed.

(** C6, as the code has it. After every read that answers frames, all of
    the quota or part of it, the loop queries [snd_pcm_delay], asks
    [get_audio_sample_time] for (those frames + content of the delay
    variable after the query, sample rate of the session) and delivers
    exactly one buffer, which carries those frames and that time stamp;
    the next read starts from the delay variable as the query left it.
    The result of the query is not looked at: the variable holds the
    delay of the hardware when the query stored one, and what it held
    before when the query failed. No run of the thread stamps or
    delivers in any other way. *)
Theorem successful_read_is_stamped (fuel : nat) (d : alsa_data)
    (a : obs_source_audio) (count delay : Z) (w : W) :
  let c := snd_pcm_mmap_readn (pcm d) (data a) count in
  let nframes := ret (fst (lib env c w)) in
  let g := lib env (snd_pcm_delay (pcm d) delay) (snd (lib env c w)) in
  let t := lib env (get_audio_sample_time (nframes + out (fst g))
                      (sample_rate d)) (snd g) in
  let a' := set_frames_timestamp a (to_uint32 nframes) (ret (fst t)) in
  let h := lib env (obs_source_output_audio (source d) a') (snd t) in
  0 < count -> 0 <= nframes ->
  read_loop env (S fuel) d a count delay w
  = prepend [Called c (fst (lib env c w));
             Called (snd_pcm_delay (pcm d) delay) (fst g);
             Called (get_audio_sample_time (nframes + out (fst g))
                       (sample_rate d)) (fst t);
             Called (obs_source_output_audio (source d) a') (fst h)]
      (read_loop env fuel d a' (to_ulong (count - nframes)) (out (fst g))
         (snd h))
  /\ frames a' = to_uint32 nframes /\ timestamp a' = ret (fst t)
  /\ (forall fuel' w',
         stamped (sample_rate d) None None None
           (trace (alsa_thread env fuel' d w'))).
Proof.
  intros c nframes g t a' h Hc Hr.
  split; [exact (read_loop_delivers fuel d a count delay w Hc Hr)|].
  split; [reflexivity|]. split; [reflexivity|].
  intros fuel' w'. apply alsa_thread_stamped.
Qed.

(** A read answered by [-EAGAIN] is made again with the same quota, the
    same delay and the same buffer; nothing is delivered for it. *)
Lemma read_loop_retry (fuel : nat) (d : alsa_data) (a : obs_source_audio)
    (count delay : Z) (w : W) :
  let c := snd_pcm_mmap_readn (pcm d) (data a) count in
  0 < count ->
  ret (fst (lib env c w)) = - EAGAIN ->
  read_loop env (S fuel) d a count delay w
  = prepend [Called c (fst (lib env c w))]
      (read_loop env fuel d a count delay (snd (lib env c w))).
Proof.
  intros c Hc Hr. cbn [read_loop].
  apply Z.gtb_lt in Hc. rewrite Hc. subst c. run_call.
  cbn [fst snd] in *. now rewrite Hr, Z.eqb_refl.
Qed.

(** A read that answers the whole quota delivers one buffer with that
    frame count and ends the period. *)
Lemma read_loop_full (fuel : nat) (d : alsa_data) (a : obs_source_audio)
    (count delay : Z) (w : W) :
  let c := snd_pcm_mmap_readn (pcm d) (data a) count in
  0 < count < 2 ^ 32 ->
  ret (fst (lib env c w)) = count ->
  let o := read_loop env (S (S fuel)) d a count delay w in
  exists a',
    value o = Some (period_done, a')
    /\ delivered (trace o) = [a']
    /\ frames a' = count.
Proof.
  intros c Hc Hr. cbn [read_loop].
  destruct (Z.gtb_spec count 0) as [_|]; [|lia]. subst c. run_call.
  cbn [fst snd] in *. rewrite Hr.
  destruct (Z.eqb_spec count (- EAGAIN)) as [Hneg|_];
    [unfold EAGAIN in Hneg; lia|].
  destruct (Z.ltb_spec count 0) as [|_]; [lia|].
  do 3 run_call.
  replace (to_ulong (count - count)) with 0
    by (rewrite Z.sub_diag; reflexivity).
  cbn [Z.gtb Z.compare].
  eexists. cbn. split; [reflexivity|]. split; [reflexivity|].
  unfold to_uint32. apply Z.mod_small. lia.
Qed.

(** C7. A read that answers [-EAGAIN] is made again with the quota, the
    delay and the buffer unchanged, and nothing is delivered for it,
    whatever the read made again answers; when it answers the whole
    quota, the period ends with exactly one buffer delivered, carrying
    that frame count. *)
Theorem retried_read_delivers_once (fuel : nat) (d : alsa_data)
    (a : obs_source_audio) (count delay : Z) (w : W) :
  let c := snd_pcm_mmap_readn (pcm d) (data a) count in
  let w1 := snd (lib env c w) in
  0 < count ->
  ret (fst (lib env c w)) = - EAGAIN ->
  (read_loop env (S fuel) d a count delay w
   = prepend [Called c (fst (lib env c w))]
       (read_loop env fuel d a count delay w1)
   /\ delivered [Called c (fst (lib env c w))] = [])
  /\ (count < 2 ^ 32 ->
      ret (fst (lib env c w1)) = count ->
      exists a',
        let o := read_loop env (S (S (S fuel))) d a count delay w in
        value o = Some (period_done, a')
        /\ delivered (trace o) = [a']
        /\ frames a' = count).
Proof.
  intros c w1 Hc Hr1.
  split; [split; [apply read_loop_retry; assumption | reflexivity]|].
  intros Hlt Hr2.
  destruct (read_loop_full fuel d a count delay w1 (conj Hc Hlt) Hr2)
    as (a' & Hv & Hd & Hf).
  exists a'. cbv zeta.
  rewrite (read_loop_retry (S (S fuel)) d a count delay w Hc Hr1).
  cbn [prepend value trace]. repeat split; trivial.
Qed.

(** A fault of the wait that recovery cannot repair ends the loop: the
    thread goes on to free its buffer and return. *)
Lemma capture_loop_wait_fault_unrecovered (fuel : nat) (d : alsa_data)
    (a : obs_source_audio) (w : W) (x : Z) :
  let e := lib env (os_event_try (event d)) w in
  let r := lib env (snd_pcm_wait (pcm d) MSEC_PER_SEC) (snd e) in
  let ox := alsa_handle_xrun env (S fuel) (pcm d) (snd r) in
  ret (fst e) = EAGAIN ->
  ret (fst r) < 0 -> ret (fst r) <> - EAGAIN ->
  value ox = Some x -> x < 0 ->
  capture_loop env (S fuel) d a w
  = prepend ([Called (os_event_try (event d)) (fst e);
              Called (snd_pcm_wait (pcm d) MSEC_PER_SEC) (fst r)]
             ++ trace ox)
      (Return tt (world ox)).
Proof.
  intros e r ox He Hr Hr' Hx Hneg. subst e r ox. cbn [capture_loop].
  run_call. cbn [fst snd] in *. rewrite He, Z.eqb_refl.
  cbn [negb]. cbv iota.
  run_call. cbn [fst snd] in *.
  destruct (Z.eqb_spec (ret r0) 0) as [|_]; [lia|].
  destruct (Z.eqb_spec (ret r0) (- EAGAIN)) as [|_]; [contradiction|].
  destruct (Z.ltb_spec (ret r0) 0) as [_|]; [|lia].
  cbn [orb]. cbv iota.
  destruct (alsa_handle_xrun env (S fuel) (pcm d) w1) as [v tx w2] eqn:E1.
  rewrite (bind_run _ _ _ _ w1 _ _ _ E1). cbn [value trace world] in *.
  subst v. destruct (Z.ltb_spec x 0) as [_|]; [|lia].
  unfold prepend, Return. cbn. now rewrite app_nil_r.
Qed.

(** A fault of a read that recovery cannot repair leaves the read loop
    for the exit of the thread; nothing is delivered for it. *)
Lemma read_loop_fault_unrecovered (fuel : nat) (d : alsa_data)
    (a : obs_source_audio) (count delay : Z) (w : W) (x : Z) :
  let c := snd_pcm_mmap_readn (pcm d) (data a) count in
  let ox := alsa_handle_xrun env (S fuel) (pcm d) (snd (lib env c w)) in
  0 < count ->
  ret (fst (lib env c w)) < 0 -> ret (fst (lib env c w)) <> - EAGAIN ->
  value ox = Some x -> x < 0 ->
  read_loop env (S fuel) d a count delay w
  = prepend (Called c (fst (lib env c w)) :: trace ox)
      (Return (goto_exit, a) (world ox)).
Proof.
  intros c ox Hc Hr Hr' Hx Hneg. subst c ox. cbn [read_loop].
  destruct (Z.gtb_spec count 0) as [_|]; [|lia].
  run_call. cbn [fst snd] in *.
  destruct (Z.eqb_spec (ret r) (- EAGAIN)) as [|_]; [contradiction|].
  destruct (Z.ltb_spec (ret r) 0) as [_|]; [|lia].
  destruct (alsa_handle_xrun env (S fuel) (pcm d) w0) as [v tx w2] eqn:E1.
  rewrite (bind_run _ _ _ _ w0 _ _ _ E1). cbn [value trace world] in *.
  subst v. destruct (Z.ltb_spec x 0) as [_|]; [|lia].
  unfold prepend, Return. cbn. now rewrite app_nil_r.
Qed.

(** A fault of a read that recovery repairs: the loop goes on to query
    the delay, stamps and delivers a buffer whose frame count is the
    error code of the read, and subtracts that negative code from the
    quota. *)
Lemma read_loop_fault_recovered (fuel : nat) (d : alsa_data)
    (a : obs_source_audio) (count delay : Z) (w : W) (x : Z) :
  let c := snd_pcm_mmap_readn (pcm d) (data a) count in
  let nframes := ret (fst (lib env c w)) in
  let ox := alsa_handle_xrun env (S fuel) (pcm d) (snd (lib env c w)) in
  let g := lib env (snd_pcm_delay (pcm d) delay) (world ox) in
  let t := lib env (get_audio_sample_time (nframes + out (fst g))
                      (sample_rate d)) (snd g) in
  let a' := set_frames_timestamp a (to_uint32 nframes) (ret (fst t)) in
  let h := lib env (obs_source_output_audio (source d) a') (snd t) in
  0 < count ->
  nframes < 0 -> nframes <> - EAGAIN ->
  value ox = Some x -> 0 <= x ->
  read_loop env (S fuel) d a count delay w
  = prepend (Called c (fst (lib env c w)) :: trace ox
             ++ [Called (snd_pcm_delay (pcm d) delay) (fst g);
                 Called (get_audio_sample_time (nframes + out (fst g))
                           (sample_rate d)) (fst t);
                 Called (obs_source_output_audio (source d) a') (fst h)])
      (read_loop env fuel d a' (to_ulong (count - nframes)) (out (fst g))
         (snd h)).
Proof.
  intros c nframes ox g t a' h Hc Hr Hr' Hx Hpos.
  subst c nframes ox g t a' h. cbn [read_loop].
  destruct (Z.gtb_spec count 0) as [_|]; [|lia].
  run_call. cbn [fst snd] in *.
  destruct (Z.eqb_spec (ret r) (- EAGAIN)) as [|_]; [contradiction|].
  destruct (Z.ltb_spec (ret r) 0) as [_|]; [|lia].
  destruct (alsa_handle_xrun env (S fuel) (pcm d) w0) as [v tx w2] eqn:E1.
  rewrite (bind_run _ _ _ _ w0 _ _ _ E1). cbn [value trace world] in *.
  subst v. destruct (Z.ltb_spec x 0) as [|_]; [lia|].
  do 3 (run_call; cbn [fst snd]).
  rewrite !prepend_prepend. f_equal.
  cbn [app]. now rewrite <- !app_assoc.
Qed.

End Capture.

(** C7 on the scripted device: one [-EAGAIN], then the 1024 frames of
    the period. *)
Lemma retried_read_delivers_once_witness :
  (read_loop scripted 4 running_session running_audio 1024 0 retry_script
   = prepend [Called (snd_pcm_mmap_readn 7 [1000; 3048] 1024)
                (Reply (- EAGAIN) 0)]
       (read_loop scripted 3 running_session running_audio 1024 0
          (play [Reply 1024 0; Reply 0 100; Reply 5000 0; ok] []))
   /\ delivered [Called (snd_pcm_mmap_readn 7 [1000; 3048] 1024)
                   (Reply (- EAGAIN) 0)] = [])
  /\ exists a',
       let o := read_loop scripted 6 running_session running_audio 1024 0
                  retry_script in
       value o = Some (period_done, a')
       /\ delivered (trace o) = [a']
       /\ frames a' = 1024.
Proof.
  destruct (retried_read_delivers_once scripted 3 running_session
              running_audio 1024 0 retry_script)
    as [Hretry Hfull]; [lia | reflexivity |].
  split; [exact Hretry|].
  apply Hfull; [lia | reflexivity].
Defined.

(** C6 as stated fails: the second read of the period answers 624 frames
    and the delay query after it fails, storing nothing; the time stamp
    delivered with those frames is computed from 624 + 100, the delay
    stored after the read before, not one the hardware reported for this
    read. *)
Lemma stale_delay_is_stamped :
  let o := read_loop scripted 4 running_session running_audio 1024 0
             stale_delay_script in
  trace o
  = [ Called (snd_pcm_mmap_readn 7 [1000; 3048] 1024) (Reply 400 0);
      Called (snd_pcm_delay 7 0) (Reply 0 100);
      Called (get_audio_sample_time 500 48000) (Reply 5000 0);
      Called (obs_source_output_audio 1
                (set_frames_timestamp running_audio 400 5000)) ok;
      Called (snd_pcm_mmap_readn 7 [1000; 3048] 624) (Reply 624 0);
      Called (snd_pcm_delay 7 100) (Reply (-32) 100);
      Called (get_audio_sample_time 724 48000) (Reply 6000 0);
      Called (obs_source_output_audio 1
                (set_frames_timestamp running_audio 624 6000)) ok ]
  /\ map timestamp (delivered (trace o)) = [5000; 6000].
Proof. split; reflexivity. Qed.

(** The amended C6 on the first read of that period. *)
Lemma successful_read_is_stamped_witness :
  read_loop scripted 3 running_session running_audio 1024 0
    stale_delay_script
  = prepend [Called (snd_pcm_mmap_readn 7 [1000; 3048] 1024) (Reply 400 0);
             Called (snd_pcm_delay 7 0) (Reply 0 100);
             Called (get_audio_sample_time 500 48000) (Reply 5000 0);
             Called (obs_source_output_audio 1
                       (set_frames_timestamp running_audio 400 5000)) ok]
      (read_loop scripted 2 running_session
         (set_frames_timestamp running_audio 400 5000) 624 100
         (play [Reply 624 0; Reply (-32) 100; Reply 6000 0; ok] []))
  /\ frames (set_frames_timestamp running_audio 400 5000) = 400
  /\ timestamp (set_frames_timestamp running_audio 400 5000) = 5000
  /\ (forall fuel' w',
         stamped 48000 None None None
           (trace (alsa_thread scripted fuel' running_session w'))).
Proof.
  refine (successful_read_is_stamped scripted 2 running_session
            running_audio 1024 0 stale_delay_script _ _).
  - reflexivity.
  - discriminate.
Defined.

(** C4. The first read of a period fails with -32 while the device is in
    overrun, and prepare succeeds. The thread then delivers a buffer made
    from the failed read, with the frame count [(uint32_t)-32], and asks
    the next read for 1056 frames where the period has 1024. *)
Theorem recovered_read_fault_is_delivered :
  let o := alsa_thread scripted 3 running_session overrun_script in
  value o = Some tt
  /\ map frames (delivered (trace o)) = [4294967264; 1056]
  /\ map timestamp (delivered (trace o)) = [5000; 6000]
  /\ In (Called (snd_pcm_mmap_readn 7 [1000; 3048] 1056) (Reply 1056 0))
        (trace o).
Proof.
  vm_compute. repeat split. do 10 right. left. reflexivity.
Qed.

(** ** Device enumeration *)

Section Enumeration.

Context {W : Type}.
Variable env : alsa_env W.

Lemma listed_keeps (t : list step) :
  Forall keeps_list t ->
  forall acc, listed acc t = acc ++ listed [] t.
Proof.
  induction 1 as [|x t Hx _ IH]; intros acc; cbn [listed].
  - now rewrite app_nil_r.
  - destruct x as [c r|p s]; [|apply IH].
    destruct c; try apply IH; [contradiction|].
    rewrite IH, (IH ([] ++ _)), <- app_assoc. reflexivity.
Qed.

Lemma device_loop_keeps (prop card_ctl card card_info : Z) (fuel : nat) :
  forall pcm_info dev w,
    Forall keeps_list
      (trace (device_loop env fuel prop card_ctl card card_info
                pcm_info dev w)).
Proof.
  induction fuel as [|fuel IH]; intros pcm_info dev w;
    cbn [device_loop]; [constructor|].
  cbv zeta. run_call. cbn [prepend trace app].
  apply Forall_cons; [exact I|].
  destruct (negb (ret r =? 0)); [constructor|].
  destruct (out r <? 0); [constructor|].
  run_call. cbn [prepend trace app]. apply Forall_cons; [exact I|].
  destruct (negb (ret r0 =? 0)); [apply IH|].
  do 3 run_call. cbn [prepend trace app].
  repeat (apply Forall_cons; [exact I|]). apply IH.
Qed.

Lemma card_loop_keeps (prop : Z) (fuel : nat) :
  forall card card_info pcm_info w,
    Forall keeps_list
      (trace (card_loop env fuel prop card card_info pcm_info w)).
Proof.
  induction fuel as [|fuel IH]; intros card card_info pcm_info w;
    cbn [card_loop]; [constructor|].
  cbv zeta. run_call. cbn [prepend trace app].
  apply Forall_cons; [exact I|].
  destruct (negb (ret r =? 0)); [constructor|].
  destruct (out r <? 0); [constructor|].
  run_call. cbn [prepend trace app]. apply Forall_cons; [exact I|].
  destruct (negb (ret r0 =? 0)); [apply IH|].
  run_call. cbn [prepend trace app]. apply Forall_cons; [exact I|].
  destruct (negb (ret r1 =? 0)).
  - run_call. cbn [prepend trace app]. apply Forall_cons; [exact I|].
    apply IH.
  - rewrite bind_trace. apply Forall_app. split; [apply device_loop_keeps|].
    destruct (value (device_loop env (S fuel) prop (out r0) (out r)
                       (out r1) pcm_info (-1) w2)) as [pi|]; [|constructor].
    run_call. cbn [prepend trace app]. apply Forall_cons; [exact I|].
    apply IH.
Qed.

(** The list always starts with the default device. *)
Lemma default_entry_first (fuel : nat) (prop : Z) (w : W) :
  exists rest,
    listed [] (trace (alsa_device_list env fuel prop w))
    = ("Default Audio Device"%string, "default"%string) :: rest.
Proof.
  unfold alsa_device_list. do 2 run_call.
  cbn [prepend trace app listed].
  rewrite listed_keeps by apply card_loop_keeps.
  eexists. reflexivity.
Qed.

(** A card that cannot be opened adds nothing; the loop goes on from
    it. *)
Lemma card_open_failure_skipped (fuel : nat) (prop card ci pi : Z) (w : W) :
  let n := lib env (snd_card_next card) w in
  let o := lib env (snd_ctl_open
                      (snprintf32 ("hw:" ++ string_of_Z (out (fst n))))
                      0) (snd n) in
  ret (fst n) = 0 -> 0 <= out (fst n) -> ret (fst o) <> 0 ->
  card_loop env (S fuel) prop card ci pi w
  = prepend [Called (snd_card_next card) (fst n);
             Called (snd_ctl_open
                       (snprintf32 ("hw:" ++ string_of_Z (out (fst n))))
                       0) (fst o)]
      (card_loop env fuel prop (out (fst n)) ci pi (snd o)).
Proof.
  intros n o Hn Hc Ho. subst n o. cbn [card_loop]. cbv zeta.
  run_call. cbn [fst snd] in *. rewrite Hn. cbn [Z.eqb negb]. cbv iota.
  destruct (Z.ltb_spec (out r) 0) as [|_]; [lia|].
  run_call. cbn [fst snd] in *.
  destruct (Z.eqb_spec (ret r0) 0) as [|_]; [contradiction|].
  cbn [negb]. cbv iota. now rewrite prepend_prepend.
Qed.

(** A card whose information cannot be read is closed and adds nothing;
    the loop goes on from it. *)
Lemma card_info_failure_skipped (fuel : nat) (prop card ci pi : Z) (w : W) :
  let n := lib env (snd_card_next card) w in
  let name := snprintf32 ("hw:" ++ string_of_Z (out (fst n))) in
  let o := lib env (snd_ctl_open name 0) (snd n) in
  let i := lib env (snd_ctl_card_info (out (fst o)) ci) (snd o) in
  let c := lib env (snd_ctl_close (out (fst o))) (snd i) in
  ret (fst n) = 0 -> 0 <= out (fst n) -> ret (fst o) = 0 ->
  ret (fst i) <> 0 ->
  card_loop env (S fuel) prop card ci pi w
  = prepend [Called (snd_card_next card) (fst n);
             Called (snd_ctl_open name 0) (fst o);
             Called (snd_ctl_card_info (out (fst o)) ci) (fst i);
             Called (snd_ctl_close (out (fst o))) (fst c)]
      (card_loop env fuel prop (out (fst n)) (out (fst i)) pi (snd c)).
Proof.
  intros n name o i c Hn Hc Ho Hi. subst n name o i c.
  cbn [card_loop]. cbv zeta.
  run_call. cbn [fst snd] in *. rewrite Hn. cbn [Z.eqb negb]. cbv iota.
  destruct (Z.ltb_spec (out r) 0) as [|_]; [lia|].
  run_call. cbn [fst snd] in *. rewrite Ho. cbn [Z.eqb negb]. cbv iota.
  run_call. cbn [fst snd] in *.
  destruct (Z.eqb_spec (ret r1) 0) as [|_]; [contradiction|].
  cbn [negb]. cbv iota.
  run_call. cbn [fst snd]. now rewrite !prepend_prepend.
Qed.

(** A device that cannot be queried adds nothing; the loop goes on from
    it. *)
Lemma device_info_failure_skipped (fuel : nat)
    (prop ctl card ci pi dev : Z) (w : W) :
  let n := lib env (snd_ctl_pcm_next_device ctl dev) w in
  let i := lib env (snd_ctl_pcm_info ctl (out (fst n))
                      SND_PCM_STREAM_CAPTURE pi) (snd n) in
  ret (fst n) = 0 -> 0 <= out (fst n) -> ret (fst i) <> 0 ->
  device_loop env (S fuel) prop ctl card ci pi dev w
  = prepend [Called (snd_ctl_pcm_next_device ctl dev) (fst n);
             Called (snd_ctl_pcm_info ctl (out (fst n))
                       SND_PCM_STREAM_CAPTURE pi) (fst i)]
      (device_loop env fuel prop ctl card ci (out (fst i)) (out (fst n))
         (snd i)).
Proof.
  intros n i Hn Hd Hi. subst n i. cbn [device_loop]. cbv zeta.
  run_call. cbn [fst snd] in *. rewrite Hn. cbn [Z.eqb negb]. cbv iota.
  destruct (Z.ltb_spec (out r) 0) as [|_]; [lia|].
  run_call. cbn [fst snd] in *.
  destruct (Z.eqb_spec (ret r0) 0) as [|_]; [contradiction|].
  cbn [negb]. cbv iota. now rewrite prepend_prepend.
Qed.

(** C9. The property list always starts with the default device,
    whatever fails afterwards. A card that cannot be opened, a card whose
    information cannot be read, and a device that cannot be queried each
    add no entry, and the loop they are met in continues from them with
    the cards or devices that remain. *)
Theorem enumeration_failures_nonfatal (fuel : nat) (prop : Z) :
  (forall w, exists rest,
      listed [] (trace (alsa_device_list env fuel prop w))
      = ("Default Audio Device"%string, "default"%string) :: rest)
  /\ (forall card ci pi w,
        let n := lib env (snd_card_next card) w in
        let name := snprintf32 ("hw:" ++ string_of_Z (out (fst n))) in
        let o := lib env (snd_ctl_open name 0) (snd n) in
        ret (fst n) = 0 -> 0 <= out (fst n) -> ret (fst o) <> 0 ->
        card_loop env (S fuel) prop card ci pi w
        = prepend [Called (snd_card_next card) (fst n);
                   Called (snd_ctl_open name 0) (fst o)]
            (card_loop env fuel prop (out (fst n)) ci pi (snd o)))
  /\ (forall card ci pi w,
        let n := lib env (snd_card_next card) w in
        let name := snprintf32 ("hw:" ++ string_of_Z (out (fst n))) in
        let o := lib env (snd_ctl_open name 0) (snd n) in
        let i := lib env (snd_ctl_card_info (out (fst o)) ci) (snd o) in
        let c := lib env (snd_ctl_close (out (fst o))) (snd i) in
        ret (fst n) = 0 -> 0 <= out (fst n) -> ret (fst o) = 0 ->
        ret (fst i) <> 0 ->
        card_loop env (S fuel) prop card ci pi w
        = prepend [Called (snd_card_next card) (fst n);
                   Called (snd_ctl_open name 0) (fst o);
                   Called (snd_ctl_card_info (out (fst o)) ci) (fst i);
                   Called (snd_ctl_close (out (fst o))) (fst c)]
            (card_loop env fuel prop (out (fst n)) (out (fst i)) pi
               (snd c)))
  /\ (forall ctl card ci pi dev w,
        let n := lib env (snd_ctl_pcm_next_device ctl dev) w in
        let i := lib env (snd_ctl_pcm_info ctl (out (fst n))
                            SND_PCM_STREAM_CAPTURE pi) (snd n) in
        ret (fst n) = 0 -> 0 <= out (fst n) -> ret (fst i) <> 0 ->
        device_loop env (S fuel) prop ctl card ci pi dev w
        = prepend [Called (snd_ctl_pcm_next_device ctl dev) (fst n);
                   Called (snd_ctl_pcm_info ctl (out (fst n))
                             SND_PCM_STREAM_CAPTURE pi) (fst i)]
            (device_loop env fuel prop ctl card ci (out (fst i))
               (out (fst n)) (snd i))).
Proof.
  split; [intros w; apply default_entry_first|].
  split; [intros; apply card_open_failure_skipped; assumption|].
  split; [intros; apply card_info_failure_skipped; assumption|].
  intros; apply device_info_failure_skipped; assumption.
Qed.

End Enumeration.

(** C9 on the machine with three cards: card 0 cannot be opened, device 0
    of card 1 cannot be queried, the information of card 2 cannot be
    read; the list holds the default device and device 1 of card 1. *)
Lemma enumeration_failures_nonfatal_witness :
  let rs := replies cards_script in
  listed [] (trace (alsa_device_list scripted 5 1 cards_script))
  = [ ("Default Audio Device"%string, "default"%string);
      ("plughw:1,1 (HDA Intel, ALC887 Analog)"%string,
       "plughw:1,1"%string) ]
  /\ (exists rest,
        listed [] (trace (alsa_device_list scripted 5 1 cards_script))
        = ("Default Audio Device"%string, "default"%string) :: rest)
  /\ card_loop scripted 6 1 (-1) 0 0 (play (skipn 2 rs) [])
     = prepend [Called (snd_card_next (-1)) (Reply 0 0);
                Called (snd_ctl_open "hw:0" 0) (Reply (-2) 0)]
         (card_loop scripted 5 1 0 0 0 (play (skipn 4 rs) []))
  /\ card_loop scripted 6 1 1 1 0 (play (skipn 16 rs) [])
     = prepend [Called (snd_card_next 1) (Reply 0 2);
                Called (snd_ctl_open "hw:2" 0) (Reply 0 22);
                Called (snd_ctl_card_info 22 1) (Reply (-19) 0);
                Called (snd_ctl_close 22) ok]
         (card_loop scripted 5 1 2 0 0 (play (skipn 20 rs) []))
  /\ device_loop scripted 6 1 21 1 1 0 (-1) (play (skipn 7 rs) [])
     = prepend [Called (snd_ctl_pcm_next_device 21 (-1)) (Reply 0 0);
                Called (snd_ctl_pcm_info 21 0 SND_PCM_STREAM_CAPTURE 0)
                  (Reply (-2) 0)]
         (device_loop scripted 5 1 21 1 1 0 0 (play (skipn 9 rs) [])).
Proof.
  destruct (enumeration_failures_nonfatal scripted 5 1)
    as (Hdefault & Hopen & Hinfo & Hdev).
  split; [reflexivity|].
  split; [exact (Hdefault cards_script)|].
  split; [|split].
  - refine (Hopen (-1) 0 0 (play (skipn 2 (replies cards_script)) [])
              _ _ _); [reflexivity | discriminate | discriminate].
  - refine (Hinfo 1 1 0 (play (skipn 16 (replies cards_script)) [])
              _ _ _ _);
      [reflexivity | discriminate | reflexivity | discriminate].
  - refine (Hdev 21 1 1 0 (-1) (play (skipn 7 (replies cards_script)) [])
              _ _ _); [reflexivity | discriminate | discriminate].
Defined.

(** ** Further properties: stopping and negotiating *)

Section StopAndNegotiate.

Context {W : Type}.
Variable env : alsa_env W.

Lemma set_handles_null (d : alsa_data) :
  thread d = 0 -> pcm d = 0 -> set_pcm (set_thread d 0) 0 = d.
Proof. destruct d; cbn; intros -> ->; reflexivity. Qed.

Lemma set_thread_null (d : alsa_data) :
  thread d = 0 -> set_thread d 0 = d.
Proof. destruct d; cbn; intros ->; reflexivity. Qed.

Lemma set_pcm_null (d : alsa_data) : pcm d = 0 -> set_pcm d 0 = d.
Proof. destruct d; cbn; intros ->; reflexivity. Qed.

(** What a run of [alsa_terminate] is. *)
Lemma alsa_terminate_run (d : alsa_data) (w : W) :
  let o := alsa_terminate env d w in
  value o = Some (set_pcm (set_thread d 0) 0)
  /\ calls_of (trace o)
     = (if thread d =? 0 then []
        else [os_event_signal (event d); pthread_join (thread d);
              os_event_destroy (event d)])
       ++ (if pcm d =? 0 then [] else [snd_pcm_close (pcm d)])
  /\ Forall (step_in is_teardown false) (trace o).
Proof.
  unfold alsa_terminate, bind, invoke, Return.
  destruct (Z.eqb_spec (thread d) 0) as [Ht|Ht]; cbn.
  - rewrite (set_thread_null d Ht).
    destruct (Z.eqb_spec (pcm d) 0) as [Hp|Hp]; cbn.
    + rewrite (set_pcm_null d Hp). repeat split; constructor.
    + next_call. repeat split. repeat constructor.
  - repeat next_call.
    destruct (Z.eqb_spec (pcm d) 0) as [Hp|Hp]; cbn.
    + rewrite (set_pcm_null (set_thread d 0) Hp).
      repeat split. repeat constructor.
    + next_call. repeat split. repeat constructor.
Qed.

(** X1. Whatever the state of the session, [alsa_terminate] returns it
    with both handles null and every other field as it was. It signals
    the stop event, joins the thread and destroys the event exactly when
    the thread handle is set, closes the device exactly when the device
    handle is set, and closes the device only after the join. *)
Theorem alsa_terminate_stops_session (d : alsa_data) (w : W) :
  let o := alsa_terminate env d w in
  value o = Some (set_pcm (set_thread d 0) 0)
  /\ calls_of (trace o)
     = (if thread d =? 0 then []
        else [os_event_signal (event d); pthread_join (thread d);
              os_event_destroy (event d)])
       ++ (if pcm d =? 0 then [] else [snd_pcm_close (pcm d)]).
Proof.
  destruct (alsa_terminate_run d w) as (Hv & Hc & _). split; assumption.
Qed.

(** X2. Stopping twice is stopping once: the second [alsa_terminate]
    calls nothing, so the two in sequence give the result, the log and
    the world of the first alone. *)
Theorem alsa_terminate_twice (d : alsa_data) (w : W) :
  bind (alsa_terminate env d) (alsa_terminate env) w
  = alsa_terminate env d w.
Proof.
  destruct (alsa_terminate_returns env d w) as [d1 Hv].
  destruct (alsa_terminate_clears env d d1 w Hv) as [Ht Hp].
  destruct (alsa_terminate env d w) as [v t w1] eqn:E.
  cbn [value] in Hv. subst v.
  rewrite (bind_run _ _ _ _ w _ _ _ E).
  rewrite (alsa_terminate_null env d1 w1 Ht Hp).
  unfold prepend. cbn. now rewrite app_nil_r.
Qed.

(** What a run of [alsa_set_hwparams] leaves: a result that is 0 after
    all twelve calls or negative after fewer, and a session in which only
    the negotiated fields may have changed. *)
Lemma alsa_set_hwparams_run (p : Z) (d : alsa_data) (w : W) :
  let o := alsa_set_hwparams env p d w in
  exists h d',
    value o = Some (h, d')
    /\ (source d' = source d /\ thread d' = thread d /\ event d' = event d
        /\ num_pollfds d' = num_pollfds d /\ device d' = device d
        /\ pcm d' = pcm d /\ pcm_format d' = pcm_format d
        /\ channels d' = channels d)
    /\ Forall negotiation_step (trace o)
    /\ ((h = 0 /\ List.length (trace o) = 12%nat)
        \/ (h < 0 /\ (List.length (trace o) < 12)%nat)).
Proof.
  negotiate; eexists _, _;
    (split; [reflexivity|]);
    (split; [cbn; repeat split; reflexivity|]);
    (split; [repeat constructor|]);
    first [ left; split; reflexivity
          | right; split; [apply Z.ltb_lt; assumption | cbn; lia] ].
Qed.

(** X3. [alsa_set_hwparams] makes its calls in the order of the source,
    from the first and without gaps: a log of [n] calls is the first [n]
    of the twelve steps. It never makes more than twelve, and none of
    them is outside the hardware-parameter interface. *)
Theorem negotiation_calls_in_source_order (p : Z) (d : alsa_data) (w : W) :
  let t := trace (alsa_set_hwparams env p d w) in
  map negotiation_rank (calls_of t) = seq 1 (List.length t)
  /\ (List.length t <= 12)%nat
  /\ List.length (calls_of t) = List.length t.
Proof.
  negotiate; repeat split; cbn; lia.
Qed.

(** X4. The negotiation returns 0 or a negative error, never a positive
    value. It returns 0 only after all twelve calls. When it returns an
    error, the last call made is one of the checked steps, the error is
    what that step answered, and every checked step before it had
    succeeded. *)
Theorem negotiation_stops_at_first_error (p : Z) (d : alsa_data) (w : W) :
  let o := alsa_set_hwparams env p d w in
  exists h d',
    value o = Some (h, d')
    /\ ((h = 0 /\ List.length (trace o) = 12%nat)
        \/ (h < 0
            /\ (exists c r,
                   last (trace o) (StateOf 0 SND_PCM_STATE_OPEN) = Called c r
                   /\ is_checked c = true /\ ret r = h)
            /\ (forall c r,
                   In (Called c r) (removelast (trace o)) ->
                   is_checked c = true -> 0 <= ret r))).
Proof.
  negotiate; eexists _, _; (split; [reflexivity|]);
    repeat match goal with
           | H : (ret _ <? 0) = false |- _ => apply Z.ltb_ge in H
           | H : (ret _ <? 0) = true |- _ => apply Z.ltb_lt in H
           end;
    first
      [ left; split; reflexivity
      | right; split; [assumption|]; split;
        [ eexists _, _; cbn [last]; repeat split; reflexivity
        | intros c' r' HIn Hc; cbn [removelast In] in HIn;
          repeat (destruct HIn as [HIn | HIn];
                  [injection HIn as <- <-;
                   first [discriminate Hc | assumption]|]);
          contradiction ] ].
Qed.

(** X5. When the two getters of the time range fail and leave their
    variables as they were, the initial values take their place: the
    buffer time asked for is the ceiling, 500,000, and the period time
    asked for is its quarter, 125,000. *)
Theorem negotiation_defaults_without_range (p : Z) (d : alsa_data)
    (w : W) :
  let t := trace (alsa_set_hwparams env p d w) in
  (forall v g,
      In (Called (snd_pcm_hw_params_get_buffer_time_max v) g) t ->
      out g = v) ->
  (forall v g,
      In (Called (snd_pcm_hw_params_get_period_time_min v) g) t ->
      out g = v) ->
  (forall q b r,
      In (Called (snd_pcm_hw_params_set_buffer_time_near q b) r) t ->
      b = 500000)
  /\ (forall q pt r,
         In (Called (snd_pcm_hw_params_set_period_time_near q pt) r) t ->
         pt = 125000).
Proof.
  negotiate; intros Hmax Hmin;
    (split; intros q v r' HIn; cbn [In] in HIn;
     repeat (destruct HIn as [HIn | HIn]; [try discriminate HIn|]);
     try contradiction;
     injection HIn as <- <- <-).
  all: match goal with
       | E : lib env (snd_pcm_hw_params_get_buffer_time_max ?v) _
             = (?g, _) |- _ =>
           rewrite (Hmax v g) by (cbn [In]; do 5 right; left; reflexivity)
       end.
  all: try match goal with
       | E : lib env (snd_pcm_hw_params_get_period_time_min ?v) _
             = (?g, _) |- _ =>
           rewrite (Hmin v g) by (cbn [In]; do 6 right; left; reflexivity)
       end.
  all: reflexivity.
Qed.

(** X6. The negotiation writes three fields of the session and no other:
    when it returns 0 the sample rate is what
    [snd_pcm_hw_params_set_rate_near] stored for the rate requested, and
    the period size and the buffer size are what the two size getters
    stored; source, handles, stop event, device name, format and channel
    count come back as they were whatever the result. *)
Theorem negotiation_stores_what_was_negotiated (p : Z) (d : alsa_data)
    (w : W) :
  let o := alsa_set_hwparams env p d w in
  exists h d',
    value o = Some (h, d')
    /\ source d' = source d /\ thread d' = thread d /\ event d' = event d
    /\ device d' = device d /\ pcm d' = pcm d
    /\ pcm_format d' = pcm_format d /\ channels d' = channels d
    /\ (h = 0 ->
        exists rr rp rb,
          In (Called (snd_pcm_hw_params_set_rate_near p (sample_rate d)) rr)
             (trace o)
          /\ sample_rate d' = out rr
          /\ In (Called (snd_pcm_hw_params_get_period_size (period_size d))
                   rp) (trace o)
          /\ period_size d' = out rp
          /\ In (Called (snd_pcm_hw_params_get_buffer_size (buffer_size d))
                   rb) (trace o)
          /\ buffer_size d' = out rb).
Proof.
  negotiate; eexists _, _; (split; [reflexivity|]);
    repeat (split; [reflexivity|]);
    repeat match goal with
           | H : (ret _ <? 0) = true |- _ => apply Z.ltb_lt in H
           end;
    intros Hz; try lia.
  eexists _, _, _. cbn [In].
  split; [do 4 right; left; reflexivity|]. split; [reflexivity|].
  split; [do 9 right; left; reflexivity|]. split; [reflexivity|].
  split; [do 10 right; left; reflexivity|]. reflexivity.
Qed.

(** The negotiation asks for the format, the channel count and the rate
    of the session, and for memory-mapped non-interleaved access. *)
Lemma alsa_set_hwparams_asks (p : Z) (d : alsa_data) (w : W) :
  Forall (asks_for d) (trace (alsa_set_hwparams env p d w))
  /\ Forall (step_in is_starting false) (trace (alsa_set_hwparams env p d w)).
Proof.
  negotiate; split; repeat (apply Forall_cons; [reflexivity|]);
    apply Forall_nil.
Qed.

End StopAndNegotiate.

(** X5 on the scripted device: both getters answer -22 and store
    nothing. *)
Lemma negotiation_defaults_without_range_witness :
  let t := trace (alsa_set_hwparams scripted 7 stopped_session
                    blind_script) in
  In (Called (snd_pcm_hw_params_set_buffer_time_near 7 500000)
        (Reply 0 500000)) t
  /\ (forall q b r,
         In (Called (snd_pcm_hw_params_set_buffer_time_near q b) r) t ->
         b = 500000)
  /\ (forall q pt r,
         In (Called (snd_pcm_hw_params_set_period_time_near q pt) r) t ->
         pt = 125000).
Proof.
  split; [cbn; do 7 right; left; reflexivity|].
  refine (negotiation_defaults_without_range scripted 7 stopped_session
            blind_script _ _);
    intros v g HIn; cbn in HIn;
    repeat (destruct HIn as [HIn | HIn]; [try discriminate HIn|]);
    try contradiction; injection HIn as <- <-; reflexivity.
Defined.

(** ** Further properties: starting, updating and destroying *)

Section StartAndUpdate.

Context {W : Type}.
Variable env : alsa_env W.

Lemma asks_for_set_pcm (d : alsa_data) (x : Z) (t : list step) :
  Forall (asks_for (set_pcm d x)) t -> Forall (asks_for d) t.
Proof.
  apply Forall_impl. intros [c r|p s]; [|exact (fun H => H)].
  destruct c; exact (fun H => H).
Qed.

(** What a run of [alsa_init] is: the device is opened first, with the
    name of the session, for capture and without blocking; what follows
    is the negotiation, then the creation of the stop event, then that of
    the thread, as far as each step succeeds. *)
Lemma alsa_init_run (d : alsa_data) (w : W) :
  let c := snd_pcm_open (pcm d) (device d) SND_PCM_STREAM_CAPTURE
             SND_PCM_NONBLOCK in
  let ro := fst (lib env c w) in
  let o := alsa_init env d w in
  exists b d' rest,
    value o = Some (b, d')
    /\ trace o = Called c ro :: rest
    /\ Forall (step_in is_starting false) rest
    /\ Forall (asks_for d) rest
    /\ (source d' = source d /\ device d' = device d
        /\ pcm_format d' = pcm_format d /\ channels d' = channels d
        /\ pcm d' = out ro)
    /\ (b = true ->
        exists tneg re rt,
          rest = tneg ++ [Called (os_event_init (event d)
                                    OS_EVENT_TYPE_MANUAL) re;
                          Called (pthread_create (thread d)) rt]
          /\ List.length tneg = 12%nat
          /\ Forall negotiation_step tneg
          /\ 0 <= ret ro /\ ret re = 0 /\ ret rt = 0
          /\ event d' = out re /\ thread d' = out rt)
    /\ (b = false ->
        (thread d' = thread d
         /\ forall tp r, ~ In (Called (pthread_create tp) r) rest)
        \/ exists tneg re rt,
             rest = tneg ++ [Called (os_event_init (event d)
                                       OS_EVENT_TYPE_MANUAL) re;
                             Called (pthread_create (thread d)) rt]
             /\ ret re = 0 /\ ret rt <> 0 /\ thread d' = out rt).
Proof.
  cbv zeta. rewrite alsa_init_unfold.
  destruct (lib env (snd_pcm_open (pcm d) (device d) SND_PCM_STREAM_CAPTURE
                       SND_PCM_NONBLOCK) w) as [ro w1].
  cbv beta iota zeta. cbn [fst snd].
  destruct (Z.ltb_spec (ret ro) 0) as [Hro|Hro].
  - cbn [prepend Return value trace world app].
    exists false, (set_pcm d (out ro)), [].
    split; [reflexivity|]. split; [reflexivity|].
    split; [constructor|]. split; [constructor|].
    split; [cbn; auto|]. split; [discriminate|].
    intros _. left. split; [reflexivity|]. intros tp r [].
  - match goal with
    | |- context [bind (alsa_set_hwparams env ?p ?d1) ?k ?w0] =>
        destruct (alsa_set_hwparams_run env p d1 w0)
          as (h & d2 & Hv & Hframe & HF & Hlen);
        destruct (alsa_set_hwparams_asks env p d1 w0) as [Hask Hst];
        destruct (alsa_set_hwparams env p d1 w0) as [v t w2] eqn:Eh;
        rewrite (bind_run _ _ _ k w0 _ _ _ Eh)
    end.
    cbn [value trace] in Hv, HF, Hlen, Hask, Hst. subst v.
    apply asks_for_set_pcm in Hask.
    destruct Hframe as (Hsrc & Hthr & Hev & _ & Hdev & Hpcm & Hfmt & Hch).
    cbn [source thread event device pcm pcm_format channels set_pcm]
      in Hsrc, Hthr, Hev, Hdev, Hpcm, Hfmt, Hch.
    assert (Hno : forall tp r, ~ In (Called (pthread_create tp) r) t).
    { intros tp r H. rewrite Forall_forall in HF. apply HF in H.
      discriminate H. }
    cbv beta iota zeta. cbn [fst snd].
    destruct (Z.ltb_spec h 0) as [Hh|Hh].
    + cbn [prepend Return value trace world app].
      exists false, d2, (t ++ []). rewrite app_nil_r.
      split; [reflexivity|]. split; [reflexivity|].
      split; [assumption|]. split; [assumption|].
      split; [auto|]. split; [discriminate|].
      intros _. left. split; assumption.
    + destruct Hlen as [[_ Hlen]|[Hneg _]]; [|lia].
      run_call. rewrite Hev.
      destruct (Z.eqb_spec (ret r) 0) as [Hre|Hre]; cbn [negb]; cbv iota.
      * run_call. cbn [thread set_event]. rewrite Hthr.
        destruct (Z.eqb_spec (ret r0) 0) as [Hrt|Hrt]; cbn [negb];
          cbv iota; cbn [prepend Return value trace world app].
        { exists true, (set_thread (set_event d2 (out r)) (out r0)),
            (t ++ [Called (os_event_init (event d) OS_EVENT_TYPE_MANUAL) r;
                   Called (pthread_create (thread d)) r0]).
          split; [reflexivity|]. split; [reflexivity|].
          split; [apply Forall_app; split;
                  [assumption | repeat constructor]|].
          split; [apply Forall_app; split;
                  [assumption | repeat constructor]|].
          split; [cbn; auto|]. split; [|discriminate].
          intros _. exists t, r, r0. cbn. repeat split; assumption. }
        { exists false, (set_thread (set_event d2 (out r)) (out r0)),
            (t ++ [Called (os_event_init (event d) OS_EVENT_TYPE_MANUAL) r;
                   Called (pthread_create (thread d)) r0]).
          split; [reflexivity|]. split; [reflexivity|].
          split; [apply Forall_app; split;
                  [assumption | repeat constructor]|].
          split; [apply Forall_app; split;
                  [assumption | repeat constructor]|].
          split; [cbn; auto|]. split; [discriminate|].
          intros _. right. exists t, r, r0. cbn. repeat split; assumption. }
      * cbn [prepend Return value trace world app].
        exists false, (set_event d2 (out r)),
          (t ++ [Called (os_event_init (event d) OS_EVENT_TYPE_MANUAL) r]).
        split; [reflexivity|]. split; [reflexivity|].
        split; [apply Forall_app; split;
                [assumption | repeat constructor]|].
        split; [apply Forall_app; split;
                [assumption | repeat constructor]|].
        split; [cbn; auto|]. split; [discriminate|].
        intros _. left. split; [cbn; assumption|].
        intros tp r' H. apply in_app_or in H as [H | [H | []]];
          [exact (Hno tp r' H) | discriminate H].
Qed.

(** X7. When [alsa_init] reports success it has made exactly fifteen
    calls, in this order: the open of the device, the twelve calls of the
    negotiation, the creation of the stop event and the creation of the
    thread, all of the checked ones with success; the thread is created
    last, and the session holds the three handles the library stored. *)
Theorem alsa_init_success_sequence (d d' : alsa_data) (w : W) :
  let c := snd_pcm_open (pcm d) (device d) SND_PCM_STREAM_CAPTURE
             SND_PCM_NONBLOCK in
  let o := alsa_init env d w in
  value o = Some (true, d') ->
  exists ro tneg re rt,
    trace o = Called c ro :: tneg
              ++ [Called (os_event_init (event d) OS_EVENT_TYPE_MANUAL) re;
                  Called (pthread_create (thread d)) rt]
    /\ List.length tneg = 12%nat
    /\ Forall negotiation_step tneg
    /\ 0 <= ret ro /\ ret re = 0 /\ ret rt = 0
    /\ pcm d' = out ro /\ event d' = out re /\ thread d' = out rt.
Proof.
  intros c o Hv. subst c o.
  destruct (alsa_init_run d w)
    as (b & d1 & rest & Hv1 & Ht & _ & _ & Hfr & Hok & _).
  rewrite Hv in Hv1. injection Hv1 as <- <-.
  destruct (Hok eq_refl)
    as (tneg & re & rt & -> & Hlen & HF & H1 & H2 & H3 & H4 & H5).
  eexists _, tneg, re, rt. split; [exact Ht|].
  destruct Hfr as (_ & _ & _ & _ & Hpcm). repeat split; assumption.
Qed.

(** X8. A stop event created by a start that then fails to create the
    thread is lost: [alsa_init] has created it with success, and when the
    thread handle was left null the [alsa_terminate] that follows closes
    the device and nothing else, so the event is never destroyed. *)
Theorem failed_thread_creation_loses_event (d d' : alsa_data) (w w' : W)
    (tp : Z) (rt : reply) :
  value (alsa_init env d w) = Some (false, d') ->
  In (Called (pthread_create tp) rt) (trace (alsa_init env d w)) ->
  thread d' = 0 ->
  (exists re,
      In (Called (os_event_init (event d) OS_EVENT_TYPE_MANUAL) re)
         (trace (alsa_init env d w))
      /\ ret re = 0)
  /\ calls_of (trace (alsa_terminate env d' w'))
     = (if pcm d' =? 0 then [] else [snd_pcm_close (pcm d')]).
Proof.
  intros Hv HIn Hthr'.
  split.
  - destruct (alsa_init_run d w)
      as (b & d1 & rest & Hv1 & Ht & _ & _ & _ & _ & Hfail).
    rewrite Hv in Hv1. injection Hv1 as <- <-.
    rewrite Ht in HIn |- *.
    destruct HIn as [HIn | HIn]; [discriminate HIn|].
    destruct (Hfail eq_refl)
      as [[_ Hno] | (tneg & re & rt' & -> & Hre & _)].
    + exfalso. exact (Hno tp rt HIn).
    + exists re. split; [|exact Hre].
      right. apply in_or_app. right. left. reflexivity.
  - destruct (alsa_terminate_run env d' w') as (_ & Hc & _).
    rewrite Hc. apply Z.eqb_eq in Hthr'. now rewrite Hthr'.
Qed.

Lemma starting_is_not_teardown (t : list step) :
  Forall (step_in is_starting false) t -> Forall (step_not is_teardown) t.
Proof.
  apply Forall_impl. intros [c r|p st]; cbn; [|discriminate].
  destruct c; cbn; (discriminate || reflexivity).
Qed.

(** What a run of [alsa_update] is: the stop of the old session, the
    release of the old name, then the start of the session [dn] that
    carries the new settings. *)
Lemma alsa_update_run (d : alsa_data) (settings : obs_data) (w : W) :
  let dn := set_channels
              (set_device (set_pcm (set_thread d 0) 0)
                 (Some (pcm_name settings)))
              (if force_mono settings then 1 else 2) in
  let o := alsa_update env d settings w in
  exists tstop rf ro rest d',
    value o = Some d'
    /\ trace o
       = tstop ++ Called (bfree (block_device (device d))) rf
         :: Called (snd_pcm_open 0 (Some (pcm_name settings))
                      SND_PCM_STREAM_CAPTURE SND_PCM_NONBLOCK) ro
         :: rest
    /\ calls_of tstop
       = (if thread d =? 0 then []
          else [os_event_signal (event d); pthread_join (thread d);
                os_event_destroy (event d)])
         ++ (if pcm d =? 0 then [] else [snd_pcm_close (pcm d)])
    /\ Forall (step_in is_teardown false) tstop
    /\ Forall (step_in is_starting false) rest
    /\ Forall (asks_for dn) rest
    /\ source d' = source d /\ device d' = Some (pcm_name settings)
    /\ pcm_format d' = pcm_format d
    /\ channels d' = (if force_mono settings then 1 else 2).
Proof.
  cbv zeta. unfold alsa_update.
  destruct (alsa_terminate_run env d w) as (Hv & Hc & HF).
  destruct (alsa_terminate env d w) as [v t w1] eqn:E.
  cbn [value trace] in Hv, Hc, HF. subst v.
  rewrite (bind_run _ _ _ _ w _ _ _ E). cbv beta iota zeta.
  run_call. cbn [device set_pcm set_thread].
  match goal with
  | |- context [bind (alsa_init env ?dn) ?k ?w0] =>
      destruct (alsa_init_run dn w0)
        as (b & d' & rest & Hv' & Ht' & Hst & Hask & Hfr & _ & _);
      destruct (alsa_init env dn w0) as [v' t' w2] eqn:E';
      rewrite (bind_run _ _ _ k w0 _ _ _ E')
  end.
  cbn [value trace] in Hv', Ht'. subst v' t'.
  cbn [pcm device set_channels set_device set_pcm set_thread] in *.
  destruct Hfr as (Hsrc & Hdev & Hfmt & Hch & _).
  cbn [prepend Return value trace world app snd].
  eexists t, r, _, rest, d'.
  split; [reflexivity|]. split; [now rewrite app_nil_r|].
  repeat split; try assumption.
Qed.

(** X9. [alsa_update] stops the old session in full before it opens the
    device again: its log is the calls of the stop, then the release of
    the old device name, then the open, which always finds the device
    handle null and is made with the new name, for capture and without
    blocking; nothing is signalled, joined, destroyed or closed after
    that open. *)
Theorem alsa_update_stops_before_opening (d : alsa_data)
    (settings : obs_data) (w : W) :
  exists tstop rf ro rest,
    trace (alsa_update env d settings w)
    = tstop ++ Called (bfree (block_device (device d))) rf
      :: Called (snd_pcm_open 0 (Some (pcm_name settings))
                   SND_PCM_STREAM_CAPTURE SND_PCM_NONBLOCK) ro
      :: rest
    /\ calls_of tstop
       = (if thread d =? 0 then []
          else [os_event_signal (event d); pthread_join (thread d);
                os_event_destroy (event d)])
         ++ (if pcm d =? 0 then [] else [snd_pcm_close (pcm d)])
    /\ Forall (step_not is_teardown) rest.
Proof.
  destruct (alsa_update_run d settings w)
    as (tstop & rf & ro & rest & d' & _ & Ht & Hc & _ & Hst & _).
  exists tstop, rf, ro, rest. split; [exact Ht|]. split; [exact Hc|].
  now apply starting_is_not_teardown.
Qed.

(** X10. [alsa_update] always returns a session, also when the start
    fails. That session carries the new device name and a channel count
    of 1 when mono is forced and of 2 otherwise; source and sample format
    are those of the old session; and whenever the negotiation gets to
    ask the device for a channel count, it asks for that count. *)
Theorem alsa_update_applies_settings (d : alsa_data) (settings : obs_data)
    (w : W) :
  let o := alsa_update env d settings w in
  exists d',
    value o = Some d'
    /\ device d' = Some (pcm_name settings)
    /\ channels d' = (if force_mono settings then 1 else 2)
    /\ pcm_format d' = pcm_format d /\ source d' = source d
    /\ (forall q c r,
           In (Called (snd_pcm_hw_params_set_channels q c) r) (trace o) ->
           c = (if force_mono settings then 1 else 2)).
Proof.
  cbv zeta.
  destruct (alsa_update_run d settings w)
    as (tstop & rf & ro & rest & d' & Hv & Ht & _ & HF & _ & Hask
        & Hsrc & Hdev & Hfmt & Hch).
  exists d'. repeat split; try assumption.
  intros q c r HIn. rewrite Ht in HIn.
  apply in_app_or in HIn as [HIn | [HIn | [HIn | HIn]]];
    try discriminate HIn.
  - rewrite Forall_forall in HF. apply HF in HIn. cbn in HIn.
    discriminate HIn.
  - rewrite Forall_forall in Hask. exact (Hask _ HIn).
Qed.

(** X11. A session made by [alsa_create] has the source it was created
    for, signed 16-bit little-endian samples, the device name of the
    settings and 1 or 2 channels. Creating it stops nothing: the log is
    the release of the null name and the open, followed by calls of the
    start only. Whenever the negotiation gets that far it asks for that
    sample format and for 48000 Hz. *)
Theorem alsa_create_session (settings : obs_data) (src : Z) (w : W) :
  let o := alsa_create env settings src w in
  exists d' rf ro rest,
    value o = Some d'
    /\ trace o
       = Called (bfree (block_device None)) rf
         :: Called (snd_pcm_open 0 (Some (pcm_name settings))
                      SND_PCM_STREAM_CAPTURE SND_PCM_NONBLOCK) ro
         :: rest
    /\ Forall (step_not is_teardown) rest
    /\ source d' = src /\ pcm_format d' = SND_PCM_FORMAT_S16_LE
    /\ device d' = Some (pcm_name settings)
    /\ channels d' = (if force_mono settings then 1 else 2)
    /\ (forall q f r,
           In (Called (snd_pcm_hw_params_set_format q f) r) rest ->
           f = SND_PCM_FORMAT_S16_LE)
    /\ (forall q v r,
           In (Called (snd_pcm_hw_params_set_rate_near q v) r) rest ->
           v = 48000).
Proof.
  cbv zeta. unfold alsa_create.
  match goal with
  | |- context [alsa_update env ?d0 settings w] =>
      destruct (alsa_update_run d0 settings w)
        as (tstop & rf & ro & rest & d' & Hv & Ht & Hc & HF & Hst & Hask
            & Hsrc & Hdev & Hfmt & Hch)
  end.
  cbn [thread pcm device source pcm_format Z.eqb app] in *.
  destruct tstop as [|[c r|p st] tstop];
    [ | cbn in Hc; discriminate Hc
      | apply Forall_inv in HF; cbn in HF; discriminate HF ].
  exists d', rf, ro, rest. cbn [app] in Ht.
  split; [exact Hv|]. split; [exact Ht|].
  split; [now apply starting_is_not_teardown|].
  repeat (split; [assumption|]).
  rewrite Forall_forall in Hask.
  split; intros q x r HIn; exact (Hask _ HIn).
Qed.

(** X12. The destroy hook on a live session stops it first and frees it
    last: the log is the calls of the stop, then the release of the
    device name, then the release of the session, and the session handed
    to that last [bfree] has both handles null. *)
Theorem alsa_destroy_frees_stopped_session (d : alsa_data) (w : W) :
  let o := alsa_destroy env (Some d) w in
  exists tstop r1 r2,
    value o = Some tt
    /\ trace o
       = tstop
         ++ [Called (bfree (block_device (device d))) r1;
             Called (bfree (block_session (set_pcm (set_thread d 0) 0))) r2]
    /\ calls_of tstop
       = (if thread d =? 0 then []
          else [os_event_signal (event d); pthread_join (thread d);
                os_event_destroy (event d)])
         ++ (if pcm d =? 0 then [] else [snd_pcm_close (pcm d)]).
Proof.
  cbv zeta. cbn [alsa_destroy].
  destruct (alsa_terminate_run env d w) as (Hv & Hc & _).
  destruct (alsa_terminate env d w) as [v t w1] eqn:E.
  cbn [value trace] in Hv, Hc. subst v.
  rewrite (bind_run _ _ _ _ w _ _ _ E). cbv beta iota zeta.
  do 2 run_call. cbn [device set_pcm set_thread].
  cbn [prepend Return value trace world app].
  exists t, r, r0. repeat split; assumption.
Qed.

End StartAndUpdate.

(** X7 on the scripted device: the start that succeeds. *)
Lemma alsa_init_success_sequence_witness :
  let o := alsa_init scripted stopped_session start_script in
  exists ro tneg re rt,
    trace o
    = Called (snd_pcm_open 0 (Some "default"%string) SND_PCM_STREAM_CAPTURE
                SND_PCM_NONBLOCK) ro
      :: tneg ++ [Called (os_event_init 0 OS_EVENT_TYPE_MANUAL) re;
                  Called (pthread_create 0) rt]
    /\ List.length tneg = 12%nat
    /\ Forall negotiation_step tneg
    /\ 0 <= ret ro /\ ret re = 0 /\ ret rt = 0
    /\ 7 = out ro /\ 5 = out re /\ 9 = out rt.
Proof.
  exact (alsa_init_success_sequence scripted stopped_session
           {| source := 1; thread := 9; event := 5; num_pollfds := 0;
              device := Some "default"%string; pcm := 7;
              pcm_format := SND_PCM_FORMAT_S16_LE; channels := 2;
              sample_rate := 44100; buffer_size := 24000;
              period_size := 6000 |}
           start_script eq_refl).
Defined.

(** X8 on the scripted device: the thread cannot be created, the event 5
    stays behind and the stop closes device 7 only. *)
Lemma failed_thread_creation_loses_event_witness :
  (exists re,
      In (Called (os_event_init 0 OS_EVENT_TYPE_MANUAL) re)
         (trace (alsa_init scripted stopped_session no_thread_script))
      /\ ret re = 0)
  /\ calls_of
       (trace (alsa_terminate scripted
                 {| source := 1; thread := 0; event := 5; num_pollfds := 0;
                    device := Some "default"%string; pcm := 7;
                    pcm_format := SND_PCM_FORMAT_S16_LE; channels := 2;
                    sample_rate := 44100; buffer_size := 24000;
                    period_size := 6000 |}
                 (play [] [])))
     = [snd_pcm_close 7].
Proof.
  refine (failed_thread_creation_loses_event scripted stopped_session
            {| source := 1; thread := 0; event := 5; num_pollfds := 0;
               device := Some "default"%string; pcm := 7;
               pcm_format := SND_PCM_FORMAT_S16_LE; channels := 2;
               sample_rate := 44100; buffer_size := 24000;
               period_size := 6000 |}
            no_thread_script (play [] []) 0 (Reply 11 0) eq_refl _ eq_refl).
  cbn. do 14 right. left. reflexivity.
Defined.

(** ** Further properties: recovery and capture *)

Section RecoverAndCapture.

Context {W : Type}.
Variable env : alsa_env W.

(** X13. Recovery never reports a positive value: its result is 0, -1 or
    the negative answer of prepare. It can fail to return only for a
    suspended device, in the loop that retries the resume. *)
Theorem alsa_handle_xrun_never_positive (fuel : nat) (p : Z) (w : W) :
  match value (alsa_handle_xrun env fuel p w) with
  | Some x => x <= 0
  | None => fst (snd_pcm_state env p w) = SND_PCM_STATE_SUSPENDED
  end.
Proof.
  unfold alsa_handle_xrun.
  destruct (snd_pcm_state env p w) as [s w0] eqn:E.
  rewrite (bind_query_state env _ _ _ w _ _ E). cbn [fst prepend value].
  assert (Hx : forall w', match value (xrun_case env p w') with
                          | Some x => x <= 0
                          | None => False
                          end).
  { intros w'. unfold xrun_case. run_call.
    destruct (Z.ltb_spec (ret r) 0); cbn; lia. }
  destruct s; try (cbn; lia);
    try (specialize (Hx w0); destruct (value (xrun_case env p w0));
         [exact Hx | contradiction]).
  destruct (resume_loop env fuel p w0) as [v t w1] eqn:E1.
  rewrite (bind_run _ _ _ _ w0 _ _ _ E1).
  destruct v as [r|]; [|reflexivity].
  destruct (r >=? 0); cbn [prepend value Return]; [lia|].
  specialize (Hx w1). destruct (value (xrun_case env p w1));
    [exact Hx | contradiction].
Qed.

Lemma resume_loop_busy (p : Z) (fuel : nat) :
  forall w,
    (forall n, ret (fst (resumed env n p w)) = - EAGAIN) ->
    value (resume_loop env fuel p w) = None
    /\ calls_of (trace (resume_loop env fuel p w)) = retry_calls fuel p.
Proof.
  induction fuel as [|fuel IH]; intros w H; cbn [resume_loop];
    [split; reflexivity|].
  pose proof (H O) as H0.
  assert (HS : forall n,
             ret (fst (resumed env n p (after_retry env p w))) = - EAGAIN)
    by (intros n; exact (H (S n))).
  cbn [resumed] in H0. unfold after_retry in HS.
  run_call. cbn [fst snd] in *. rewrite H0, Z.eqb_refl.
  run_call. cbn [fst snd] in *.
  destruct (IH w1 HS) as [Hv Hc].
  cbn [prepend value trace]. split; [exact Hv|].
  rewrite !calls_of_app, Hc. reflexivity.
Qed.

(** X14. A suspended device whose resume answers [-EAGAIN] at every
    attempt holds recovery for ever: whatever the bound on the number of
    attempts, recovery has not returned within it, has paused one second
    after each attempt, and has not called prepare. *)
Theorem resume_never_ready_never_returns (p : Z) (w : W) (fuel : nat) :
  let s := fst (snd_pcm_state env p w) in
  let w0 := snd (snd_pcm_state env p w) in
  s = SND_PCM_STATE_SUSPENDED ->
  (forall n, ret (fst (resumed env n p w0)) = - EAGAIN) ->
  let o := alsa_handle_xrun env fuel p w in
  value o = None /\ calls_of (trace o) = retry_calls fuel p.
Proof.
  cbv zeta. unfold alsa_handle_xrun.
  destruct (snd_pcm_state env p w) as [s w0] eqn:E.
  rewrite (bind_query_state env _ _ _ w _ _ E). cbn [fst snd].
  intros -> H.
  destruct (resume_loop_busy p fuel w0 H) as [Hv Hc].
  destruct (resume_loop env fuel p w0) as [v t w1] eqn:E1.
  rewrite (bind_run _ _ _ _ w0 _ _ _ E1).
  cbn [value trace] in Hv, Hc. subst v.
  cbn [prepend value trace calls_of flat_map app]. split; [reflexivity|].
  exact Hc.
Qed.

Lemma recovery_is_reading (t : list step) :
  Forall recovery_step t -> Forall (step_in is_reading true) t.
Proof.
  apply Forall_impl. intros [c r|p s]; cbn; [|reflexivity].
  destruct c; cbn; (contradiction || reflexivity).
Qed.

Lemma reading_is_capturing (t : list step) :
  Forall (step_in is_reading true) t ->
  Forall (step_in is_capturing true) t.
Proof.
  apply Forall_impl. intros [c r|p s]; cbn; [|reflexivity].
  destruct c; cbn; (discriminate || reflexivity).
Qed.

(** Runs the three calls that deliver a buffer. *)
Ltac deliver_steps IH :=
  do 3 run_call; cbn [prepend trace app];
  repeat (apply Forall_cons; [first [reflexivity | exact I | assumption]|]);
  apply IH.

Lemma read_loop_reading (d : alsa_data) (fuel : nat) :
  forall a count delay w,
    Forall (step_in is_reading true)
      (trace (read_loop env fuel d a count delay w)).
Proof.
  induction fuel as [|fuel IH]; intros a count delay w;
    cbn [read_loop]; [constructor|].
  destruct (count >? 0); cbv beta iota zeta; [|constructor].
  run_call. cbn [prepend trace app].
  apply Forall_cons; [reflexivity|].
  destruct (ret r =? - EAGAIN); [apply IH|].
  destruct (ret r <? 0); [|deliver_steps IH].
  rewrite bind_trace. apply Forall_app. split.
  - apply recovery_is_reading, alsa_handle_xrun_steps.
  - destruct (value (alsa_handle_xrun env (S fuel) (pcm d) w0)) as [x|];
      [|constructor].
    destruct (x <? 0); [constructor|]. deliver_steps IH.
Qed.

(** X15. Once a period is begun the read loop neither polls the stop
    event nor waits for the device, whatever the device answers and
    however many reads the period takes: it only reads, queries the
    delay, asks for the time stamp, delivers, and recovers. *)
Theorem read_loop_never_polls_stop (fuel : nat) (d : alsa_data)
    (a : obs_source_audio) (count delay : Z) (w : W) :
  let t := trace (read_loop env fuel d a count delay w) in
  Forall (step_in is_reading true) t
  /\ (forall ev r, ~ In (Called (os_event_try ev) r) t)
  /\ (forall q ms r, ~ In (Called (snd_pcm_wait q ms) r) t).
Proof.
  cbv zeta. pose proof (read_loop_reading d fuel a count delay w) as H.
  split; [exact H|]. rewrite Forall_forall in H.
  split; intros; intros HIn; apply H in HIn; discriminate HIn.
Qed.

Lemma capture_loop_capturing (d : alsa_data) (fuel : nat) :
  forall a w,
    Forall (step_in is_capturing true) (trace (capture_loop env fuel d a w)).
Proof.
  induction fuel as [|fuel IH]; intros a w; cbn [capture_loop];
    [constructor|].
  run_call. cbn [prepend trace app]. apply Forall_cons; [reflexivity|].
  destruct (negb (ret r =? EAGAIN)); [constructor|].
  cbv zeta. run_call. cbn [prepend trace app].
  apply Forall_cons; [reflexivity|].
  destruct ((ret r0 =? 0) || (ret r0 =? - EAGAIN)); [apply IH|].
  assert (Hreading :
    forall wx,
      Forall (step_in is_capturing true)
        (trace
           (bind (read_loop env (S fuel) d a (period_size d) 0)
              (fun x =>
                 match fst x with
                 | goto_exit => Return tt
                 | period_done => capture_loop env fuel d (snd x)
                 end) wx))).
  { intros wx. rewrite bind_trace. apply Forall_app. split.
    - apply reading_is_capturing, read_loop_reading.
    - destruct (value (read_loop env (S fuel) d a (period_size d) 0 wx))
        as [[[] a']|]; cbn [fst snd]; [apply IH | constructor | constructor]. }
  destruct (ret r0 <? 0); [|apply Hreading].
  rewrite bind_trace. apply Forall_app. split.
  - apply reading_is_capturing, recovery_is_reading, alsa_handle_xrun_steps.
  - destruct (value (alsa_handle_xrun env (S fuel) (pcm d) w1)) as [x|];
      [|constructor].
    destruct (x <? 0); [constructor | apply Hreading].
Qed.

(** X16. The period buffer of a thread that has returned: when the
    device could not be started the thread returned right after
    [snd_pcm_start], without entering the loop and without freeing the
    buffer; otherwise the buffer [bzalloc] gave is freed exactly once, as
    the last call of the thread, and between the start and that [bfree]
    the thread makes calls of the capture loop only. *)
Theorem alsa_thread_buffer_lifetime (fuel : nat) (d : alsa_data) (w : W) :
  let size := to_ulong (to_ulong
                          (Z.quot (snd_pcm_format_width env (pcm_format d)) 8
                           * period_size d) * channels d) in
  let m := lib env (bzalloc size) w in
  let rs := lib env (snd_pcm_start (pcm d)) (snd m) in
  let o := alsa_thread env fuel d w in
  value o = Some tt ->
  if ret (fst rs) <? 0
  then trace o = [Called (bzalloc size) (fst m);
                  Called (snd_pcm_start (pcm d)) (fst rs)]
  else exists tl rf,
      trace o
      = Called (bzalloc size) (fst m)
        :: Called (snd_pcm_start (pcm d)) (fst rs)
        :: tl ++ [Called (bfree (block_audio (ret (fst m)))) rf]
      /\ Forall (step_in is_capturing true) tl.
Proof.
  cbv zeta. unfold alsa_thread. cbv zeta.
  run_call. cbn [fst snd]. run_call. cbn [fst snd].
  destruct (ret r0 <? 0); cbv iota.
  - intros _. reflexivity.
  - match goal with
    | |- context [bind (capture_loop env fuel d ?a) ?k ?w0] =>
        pose proof (capture_loop_capturing d fuel a w0) as HF;
        destruct (capture_loop env fuel d a w0) as [v t w2] eqn:E1;
        rewrite (bind_run _ _ _ k w0 _ _ _ E1)
    end.
    cbn [trace] in HF. destruct v as [[]|]; cbv beta iota zeta.
    + run_call. cbn [prepend Return value trace world app].
      intros _. exists t, r1. rewrite ?app_nil_r. split; [reflexivity|].
      exact HF.
    + cbn [prepend value]. discriminate.
Qed.

(** X17. A wait that times out (answer 0) or answers [-EAGAIN] makes no
    read and delivers nothing: the loop goes back to polling the stop
    event, with the buffer and the session as they were. *)
Theorem wait_timeout_polls_again (fuel : nat) (d : alsa_data)
    (a : obs_source_audio) (w : W) :
  let e := lib env (os_event_try (event d)) w in
  let r := lib env (snd_pcm_wait (pcm d) MSEC_PER_SEC) (snd e) in
  ret (fst e) = EAGAIN ->
  ret (fst r) = 0 \/ ret (fst r) = - EAGAIN ->
  capture_loop env (S fuel) d a w
  = prepend [Called (os_event_try (event d)) (fst e);
             Called (snd_pcm_wait (pcm d) MSEC_PER_SEC) (fst r)]
      (capture_loop env fuel d a (snd r)).
Proof.
  intros e r He Hr. subst e r. cbn [capture_loop].
  run_call. cbn [fst snd] in *. rewrite He, Z.eqb_refl.
  cbn [negb]. cbv beta iota zeta.
  run_call. cbn [fst snd] in *.
  assert (Hb : (ret r0 =? 0) || (ret r0 =? - EAGAIN) = true).
  { destruct Hr as [-> | ->]; reflexivity. }
  rewrite Hb. now rewrite prepend_prepend.
Qed.

End RecoverAndCapture.

(** X14 on the device that never resumes, with a bound of three
    attempts. *)
Lemma resume_never_ready_never_returns_witness :
  let o := alsa_handle_xrun busy 3 7 tt in
  value o = None
  /\ calls_of (trace o)
     = [snd_pcm_resume 7; sleep 1; snd_pcm_resume 7; sleep 1;
        snd_pcm_resume 7; sleep 1].
Proof.
  refine (resume_never_ready_never_returns busy 7 tt 3 eq_refl _).
  intros n. induction n as [|n IH]; [reflexivity | exact IH].
Defined.

(** X16 on the scripted device: the thread of the overrun, which frees
    the buffer at 1000 as its last call. *)
Lemma alsa_thread_buffer_lifetime_witness :
  let o := alsa_thread scripted 3 running_session overrun_script in
  exists tl rf,
    trace o
    = Called (bzalloc 4096) (Reply 1000 0)
      :: Called (snd_pcm_start 7) ok
      :: tl ++ [Called (bfree (block_audio 1000)) rf]
    /\ Forall (step_in is_capturing true) tl.
Proof.
  exact (alsa_thread_buffer_lifetime scripted 3 running_session
           overrun_script eq_refl).
Defined.

(** X17 on the scripted device: the stop event is not signalled and the
    wait times out. *)
Lemma wait_timeout_polls_again_witness :
  capture_loop scripted 3 running_session running_audio
    (play [Reply EAGAIN 0; ok; ok] [])
  = prepend [Called (os_event_try 5) (Reply EAGAIN 0);
             Called (snd_pcm_wait 7 1000) ok]
      (capture_loop scripted 2 running_session running_audio
         (play [ok] [])).
Proof.
  refine (wait_timeout_polls_again scripted 2 running_session running_audio
            (play [Reply EAGAIN 0; ok; ok] []) eq_refl _).
  left. reflexivity.
Defined.

(** ** Further properties: what is delivered *)

Section Delivered.

Context {W : Type}.
Variable env : alsa_env W.

(** X18. However a period is split into partial reads, it is delivered
    whole: when the reads answer frame counts that are positive, stay
    within what is left of the quota and use it up, the read loop asks
    each read for what is left, delivers one buffer per read with the
    frame count of that read, in order, ends the period, and the frame
    counts delivered add up to the quota. *)
Theorem partial_reads_accumulate (fs : list Z) :
  forall (d : alsa_data) (a : obs_source_audio) (count delay : Z) (w : W)
         (fuel : nat),
    count < 2 ^ 32 ->
    served env fs d a count delay w ->
    let o := read_loop env (S (List.length fs) + fuel) d a count delay w in
    (exists a', value o = Some (period_done, a'))
    /\ map frames (delivered (trace o)) = fs
    /\ fold_right Z.add 0 fs = count.
Proof.
  induction fs as [|f rest IH]; intros d a count delay w fuel Hc Hs;
    cbn [served] in Hs.
  - subst count. cbn. split; [eexists; reflexivity|]. split; reflexivity.
  - cbv zeta in Hs. destruct Hs as (Hret & Hf & Hrest).
    change (S (List.length (f :: rest)) + fuel)%nat
      with (S (S (List.length rest) + fuel)).
    pose proof (read_loop_delivers env (S (List.length rest) + fuel) d a
                  count delay w) as Hd.
    cbv zeta in Hd. rewrite Hret in Hd.
    cbv zeta. rewrite Hd by lia. clear Hd.
    replace (to_ulong (count - f)) with (count - f)
      by (unfold to_ulong; symmetry; apply Z.mod_small; lia).
    match type of Hrest with
    | served _ _ _ ?a1 _ ?dl ?w1 =>
        destruct (IH d a1 (count - f) dl w1 fuel ltac:(lia) Hrest)
          as ((a' & Hv) & Hm & Hsum)
    end.
    cbn [prepend value trace].
    split; [exists a'; exact Hv|].
    split.
    + cbn [app delivered flat_map map] in *.
      unfold delivered in Hm. rewrite Hm.
      cbn [frames set_frames_timestamp]. f_equal.
      unfold to_uint32. apply Z.mod_small. lia.
    + cbn [fold_right]. rewrite Hsum. lia.
Qed.

Lemma recovery_delivers_nothing (P : obs_source_audio -> Prop)
    (t : list step) :
  Forall recovery_step t -> Forall (delivering P) t.
Proof.
  apply Forall_impl. intros [c r|p s]; cbn; [|exact (fun H => H)].
  destruct c; cbn; (contradiction || exact (fun _ => I)).
Qed.

Lemma delivering_delivered (P : obs_source_audio -> Prop) (t : list step) :
  Forall (delivering P) t -> Forall P (delivered t).
Proof.
  induction 1 as [|x t Hx _ IH]; cbn; [constructor|].
  destruct x as [c r|p s]; [|exact IH].
  destruct c; try exact IH. cbn. constructor; assumption.
Qed.

Lemma same_header_stamp (a0 a : obs_source_audio) (f t : Z) :
  same_header a0 a -> same_header a0 (set_frames_timestamp a f t).
Proof. exact (fun H => H). Qed.

(** The read loop changes nothing of the buffer but its frame count and
    its time stamp, in what it delivers and in what it returns. *)
Lemma read_loop_header (d : alsa_data) (a0 : obs_source_audio)
    (fuel : nat) :
  forall a count delay w,
    same_header a0 a ->
    Forall (delivering (same_header a0))
      (trace (read_loop env fuel d a count delay w))
    /\ (forall e a',
           value (read_loop env fuel d a count delay w) = Some (e, a') ->
           same_header a0 a').
Proof.
  induction fuel as [|fuel IH]; intros a count delay w Ha;
    cbn [read_loop]; [split; [constructor | discriminate]|].
  destruct (count >? 0); cbv beta iota zeta;
    [|split; [constructor | intros e a' [= _ <-]; exact Ha]].
  run_call.
  destruct (ret r =? - EAGAIN).
  { destruct (IH a count delay w0 Ha) as [HF Hv].
    cbn [prepend trace value app]. split; [|exact Hv].
    apply Forall_cons; [exact I | exact HF]. }
  assert (Hdeliver :
    forall wx,
      Forall (delivering (same_header a0))
        (trace
           (bind (invoke env (snd_pcm_delay (pcm d) delay))
              (fun g =>
                 bind (invoke env (get_audio_sample_time (ret r + out g)
                                     (sample_rate d)))
                   (fun t =>
                      bind (invoke env
                              (obs_source_output_audio (source d)
                                 (set_frames_timestamp a (to_uint32 (ret r))
                                    (ret t))))
                        (fun _ =>
                           read_loop env fuel d
                             (set_frames_timestamp a (to_uint32 (ret r))
                                (ret t))
                             (to_ulong (count - ret r)) (out g)))) wx))
      /\ (forall e a',
             value
               (bind (invoke env (snd_pcm_delay (pcm d) delay))
                  (fun g =>
                     bind (invoke env (get_audio_sample_time
                                         (ret r + out g) (sample_rate d)))
                       (fun t =>
                          bind (invoke env
                                  (obs_source_output_audio (source d)
                                     (set_frames_timestamp a
                                        (to_uint32 (ret r)) (ret t))))
                            (fun _ =>
                               read_loop env fuel d
                                 (set_frames_timestamp a (to_uint32 (ret r))
                                    (ret t))
                                 (to_ulong (count - ret r)) (out g)))) wx)
             = Some (e, a') ->
             same_header a0 a')).
  { intros wx. do 3 run_call.
    match goal with
    | |- context [read_loop env fuel d ?a1 ?c1 ?d1 ?w1] =>
        destruct (IH a1 c1 d1 w1 (same_header_stamp a0 a _ _ Ha))
          as [HF Hv]
    end.
    cbn [prepend trace value app]. split; [|exact Hv].
    repeat (apply Forall_cons; [first [exact I | exact Ha]|]). exact HF. }
  destruct (ret r <? 0).
  - pose proof (alsa_handle_xrun_steps env (S fuel) (pcm d) w0) as Hx.
    destruct (alsa_handle_xrun env (S fuel) (pcm d) w0) as [v tx w2] eqn:E1.
    rewrite (bind_run _ _ _ _ w0 _ _ _ E1). cbn [trace] in Hx.
    apply (recovery_delivers_nothing (same_header a0)) in Hx.
    destruct v as [x|].
    + destruct (x <? 0).
      * cbn [prepend Return trace value app]. split.
        { apply Forall_cons; [exact I|]. rewrite app_nil_r. exact Hx. }
        intros e a' [= _ <-]. exact Ha.
      * destruct (Hdeliver w2) as [HF Hv].
        cbn [prepend trace value app]. split; [|exact Hv].
        apply Forall_cons; [exact I|]. apply Forall_app. split; assumption.
    + cbn [prepend trace value app]. split; [|discriminate].
      apply Forall_cons; [exact I | exact Hx].
  - destruct (Hdeliver w0) as [HF Hv].
    cbn [prepend trace value app]. split; [|exact Hv].
    apply Forall_cons; [exact I | exact HF].
Qed.

Lemma capture_loop_header (d : alsa_data) (a0 : obs_source_audio)
    (fuel : nat) :
  forall a w,
    same_header a0 a ->
    Forall (delivering (same_header a0))
      (trace (capture_loop env fuel d a w)).
Proof.
  induction fuel as [|fuel IH]; intros a w Ha; cbn [capture_loop];
    [constructor|].
  run_call. cbn [prepend trace app]. apply Forall_cons; [exact I|].
  destruct (negb (ret r =? EAGAIN)); [constructor|].
  cbv zeta. run_call. cbn [prepend trace app].
  apply Forall_cons; [exact I|].
  destruct ((ret r0 =? 0) || (ret r0 =? - EAGAIN)); [apply IH; exact Ha|].
  assert (Hreading :
    forall wx,
      Forall (delivering (same_header a0))
        (trace
           (bind (read_loop env (S fuel) d a (period_size d) 0)
              (fun x =>
                 match fst x with
                 | goto_exit => Return tt
                 | period_done => capture_loop env fuel d (snd x)
                 end) wx))).
  { intros wx. rewrite bind_trace.
    destruct (read_loop_header d a0 (S fuel) a (period_size d) 0 wx Ha)
      as [HF Hv].
    apply Forall_app. split; [exact HF|].
    destruct (value (read_loop env (S fuel) d a (period_size d) 0 wx))
      as [[e a']|]; [|constructor].
    specialize (Hv e a' eq_refl).
    destruct e; cbn [fst snd]; [apply IH; exact Hv | constructor]. }
  destruct (ret r0 <? 0); [|apply Hreading].
  rewrite bind_trace. apply Forall_app. split.
  - apply recovery_delivers_nothing, alsa_handle_xrun_steps.
  - destruct (value (alsa_handle_xrun env (S fuel) (pcm d) w1)) as [x|];
      [|constructor].
    destruct (x <? 0); [constructor | apply Hreading].
Qed.

(** X19. Every buffer the capture thread hands to the host, in any run,
    carries the plane pointers set up at the start of the thread, one per
    channel, plane [ch] at [bytes_per_period * ch] from the address
    [bzalloc] returned, and declares the sample rate of the session (the
    rate negotiated, not the rate first asked for), the planar format
    that corresponds to the sample format of the session and the speaker
    layout of its channel count: reads and recovery change nothing of a
    buffer but its frame count and its time stamp. *)
Theorem delivered_buffers_declare_session (fuel : nat) (d : alsa_data)
    (w : W) :
  let bytes_per_period :=
    to_ulong (Z.quot (snd_pcm_format_width env (pcm_format d)) 8
              * period_size d) in
  let audio :=
    ret (fst (lib env (bzalloc (to_ulong (bytes_per_period * channels d)))
                w)) in
  Forall (fun b =>
            data b
            = map (fun ch =>
                     to_ulong (audio
                               + to_ulong (bytes_per_period * Z.of_nat ch)))
                (seq 0 (Z.to_nat (channels d)))
            /\ samples_per_sec b = sample_rate d
            /\ format b = alsa_to_obs_audio_format (pcm_format d)
            /\ speakers b = get_speaker_layout env (channels d))
    (delivered (trace (alsa_thread env fuel d w))).
Proof.
  cbv zeta. apply delivering_delivered.
  unfold alsa_thread. cbv zeta.
  run_call. cbn [fst]. run_call. cbn [prepend trace app].
  do 2 (apply Forall_cons; [exact I|]).
  destruct (ret r0 <? 0); [constructor|].
  rewrite bind_trace. apply Forall_app. split.
  - match goal with
    | |- context [capture_loop env fuel d ?a0 ?w0] =>
        pose proof (capture_loop_header d a0 fuel a0 w0
                      (conj eq_refl (conj eq_refl (conj eq_refl eq_refl))))
          as HF
    end.
    revert HF. apply Forall_impl. intros [c rc|p s]; cbn; [|trivial].
    destruct c; cbn; trivial.
    intros (Hd & Hs & Hf & Hr). rewrite Hd, Hs, Hf, Hr.
    repeat split.
  - destruct (value (capture_loop env fuel d _ w1)); [|constructor].
    run_call. cbn. repeat constructor.
Qed.

End Delivered.

(** X18 on the scripted device: 1024 frames read as 400 and 624. *)
Lemma partial_reads_accumulate_witness :
  let o := read_loop scripted 4 running_session running_audio 1024 0
             partial_script in
  (exists a', value o = Some (period_done, a'))
  /\ map frames (delivered (trace o)) = [400; 624]
  /\ fold_right Z.add 0 [400; 624] = 1024.
Proof.
  refine (partial_reads_accumulate scripted [400; 624] running_session
            running_audio 1024 0 partial_script 1 _ _).
  - reflexivity.
  - cbn. repeat split; (reflexivity || discriminate).
Defined.

(** X20. The map from ALSA sample formats to host formats is one to one
    on the four formats it knows and sends every other format to
    [AUDIO_FORMAT_UNKNOWN], and only those. *)
Theorem alsa_to_obs_audio_format_faithful (f g : snd_pcm_format_t) :
  (alsa_to_obs_audio_format f = AUDIO_FORMAT_UNKNOWN
   <-> exists code, f = SND_PCM_FORMAT_OTHER code)
  /\ (alsa_to_obs_audio_format f = alsa_to_obs_audio_format g ->
      alsa_to_obs_audio_format f <> AUDIO_FORMAT_UNKNOWN -> f = g).
Proof.
  split; [split|].
  - destruct f; cbn; try discriminate. intros _. eexists; reflexivity.
  - intros [code ->]. reflexivity.
  - destruct f, g; cbn; intros H Hn;
      (reflexivity || discriminate H || (exfalso; apply Hn; reflexivity)).
Qed.

(** ** Further properties: enumeration *)

Section MoreEnumeration.

Context {W : Type}.
Variable env : alsa_env W.

Lemma opened_app (t1 t2 : list step) :
  opened (t1 ++ t2) = opened t1 ++ opened t2.
Proof. apply flat_map_app. Qed.

Lemma closed_app (t1 t2 : list step) :
  closed (t1 ++ t2) = closed t1 ++ closed t2.
Proof. apply flat_map_app. Qed.

(** The device loop opens and closes no control handle. *)
Lemma device_loop_no_ctl (prop card_ctl card card_info : Z) (fuel : nat) :
  forall pcm_info dev w,
    let t := trace (device_loop env fuel prop card_ctl card card_info
                      pcm_info dev w) in
    opened t = [] /\ closed t = [].
Proof.
  induction fuel as [|fuel IH]; intros pcm_info dev w;
    cbn [device_loop]; [split; reflexivity|].
  cbv zeta. run_call.
  destruct (negb (ret r =? 0)); [split; reflexivity|].
  destruct (out r <? 0); [split; reflexivity|].
  run_call.
  destruct (negb (ret r0 =? 0)).
  - destruct (IH (out r0) (out r) w1) as [Ho Hc].
    cbn [prepend trace app opened closed flat_map] in *.
    split; assumption.
  - do 3 run_call.
    match goal with
    | |- context [device_loop env fuel prop card_ctl card card_info ?pi
                    ?dv ?wx] =>
        destruct (IH pi dv wx) as [Ho Hc]
    end.
    cbn [prepend trace app opened closed flat_map] in *.
    split; assumption.
Qed.

Lemma card_loop_balanced (prop : Z) (fuel : nat) :
  forall card card_info pcm_info w,
    let o := card_loop env fuel prop card card_info pcm_info w in
    value o = Some tt -> opened (trace o) = closed (trace o).
Proof.
  induction fuel as [|fuel IH]; intros card card_info pcm_info w;
    cbn [card_loop]; [discriminate|].
  cbv zeta. run_call.
  destruct (negb (ret r =? 0)); [reflexivity|].
  destruct (out r <? 0); [reflexivity|].
  run_call.
  destruct (Z.eqb_spec (ret r0) 0) as [Hr0|Hr0]; cbn [negb]; cbv iota.
  - run_call.
    destruct (negb (ret r1 =? 0)).
    + run_call. cbn [prepend value trace]. intros Hv.
      rewrite !opened_app, !closed_app, (IH _ _ _ _ Hv).
      cbn. apply Z.eqb_eq in Hr0. now rewrite Hr0.
    + match goal with
      | |- context [bind (device_loop env ?f prop ?cc ?cd ?ci ?pi ?dv)
                      ?k ?wx] =>
          destruct (device_loop_no_ctl prop cc cd ci f pi dv wx)
            as [Ho Hc];
          destruct (device_loop env f prop cc cd ci pi dv wx)
            as [v t w3] eqn:E3;
          rewrite (bind_run _ _ _ k wx _ _ _ E3)
      end.
      cbn [trace] in Ho, Hc.
      destruct v as [pi|]; [|cbn; discriminate].
      run_call. cbn [prepend value trace]. intros Hv.
      rewrite !opened_app, !closed_app, Ho, Hc, (IH _ _ _ _ Hv).
      cbn. apply Z.eqb_eq in Hr0. now rewrite Hr0.
  - cbn [prepend value trace]. intros Hv.
    rewrite !opened_app, !closed_app, (IH _ _ _ _ Hv).
    cbn. apply Z.eqb_neq in Hr0. now rewrite Hr0.
Qed.

(** X21. An enumeration that returns leaks no control handle: the
    handles it opened with success are exactly the handles it closed, in
    the same order, whichever cards or devices failed on the way. *)
Theorem enumeration_closes_what_it_opens (fuel : nat) (prop : Z) (w : W) :
  let o := alsa_device_list env fuel prop w in
  value o = Some tt -> opened (trace o) = closed (trace o).
Proof.
  cbv zeta. unfold alsa_device_list. do 2 run_call.
  cbn [prepend value trace]. intros Hv.
  rewrite !opened_app, !closed_app.
  rewrite (card_loop_balanced prop fuel _ _ _ _ Hv). reflexivity.
Qed.

Lemma string_length_append (s1 s2 : string) :
  String.length (s1 ++ s2) = (String.length s1 + String.length s2)%nat.
Proof. induction s1 as [|c s1 IH]; cbn; [reflexivity | now rewrite IH]. Qed.

Lemma description_fits (device_str card_name pcm_name : string) :
  strlen (device_str ++ " (" ++ card_name ++ ", " ++ pcm_name ++ ")") + 1
  <= strlen card_name + strlen pcm_name + strlen device_str + 10.
Proof.
  unfold strlen. rewrite !string_length_append. cbn [String.length]. lia.
Qed.

Lemma device_loop_sized (prop card_ctl card card_info : Z)
    (t' : list step) :
  sized None t' ->
  forall fuel pcm_info dev w,
    sized None
      (trace (device_loop env fuel prop card_ctl card card_info
                pcm_info dev w) ++ t').
Proof.
  intros Ht'.
  induction fuel as [|fuel IH]; intros pcm_info dev w;
    cbn [device_loop]; [exact Ht'|].
  cbv zeta. run_call. cbn [prepend trace app sized].
  destruct (negb (ret r =? 0)); [exact Ht'|].
  destruct (out r <? 0); [exact Ht'|].
  run_call. cbn [prepend trace app sized].
  destruct (negb (ret r0 =? 0)); [apply IH|].
  do 3 run_call. cbn [prepend trace app sized].
  split; [apply description_fits | apply IH].
Qed.

Lemma card_loop_sized (prop : Z) (fuel : nat) :
  forall card card_info pcm_info w,
    sized None (trace (card_loop env fuel prop card card_info pcm_info w)).
Proof.
  induction fuel as [|fuel IH]; intros card card_info pcm_info w;
    cbn [card_loop]; [exact I|].
  cbv zeta. run_call. cbn [prepend trace app sized].
  destruct (negb (ret r =? 0)); [exact I|].
  destruct (out r <? 0); [exact I|].
  run_call. cbn [prepend trace app sized].
  destruct (negb (ret r0 =? 0)); [apply IH|].
  run_call. cbn [prepend trace app sized].
  destruct (negb (ret r1 =? 0)).
  - run_call. cbn [prepend trace app sized]. apply IH.
  - rewrite bind_trace. apply device_loop_sized.
    destruct (value (device_loop env (S fuel) prop (out r0) (out r)
                       (out r1) pcm_info (-1) w2)) as [pi|]; [|exact I].
    run_call. cbn [prepend trace app sized]. apply IH.
Qed.

(** X22. The label of a hardware entry never overruns its allocation:
    after the default entry, every entry of the enumeration is added
    right after a [bzalloc] of its own, and the size asked of that
    [bzalloc] holds the label written into it together with its
    terminating zero. *)
Theorem enumeration_labels_fit (fuel : nat) (prop : Z) (w : W) :
  exists r1 r2 tc,
    trace (alsa_device_list env fuel prop w)
    = Called (obs_property_list_clear prop) r1
      :: Called (obs_property_list_add_string prop "Default Audio Device"
                   "default") r2
      :: tc
    /\ sized None tc.
Proof.
  unfold alsa_device_list. do 2 run_call. cbn [prepend trace app].
  eexists _, _, _. split; [reflexivity|]. apply card_loop_sized.
Qed.





(** X24. On a machine without cards, or when the first
    [snd_card_next] fails, the enumeration returns after that one call
    and the list holds the default device alone. *)
Theorem enumeration_without_cards (fuel : nat) (prop : Z) (w : W) :
  let c := lib env (obs_property_list_clear prop) w in
  let a := lib env (obs_property_list_add_string prop
                      "Default Audio Device" "default") (snd c) in
  let n := lib env (snd_card_next (-1)) (snd a) in
  ret (fst n) <> 0 \/ out (fst n) < 0 ->
  let o := alsa_device_list env (S fuel) prop w in
  value o = Some tt
  /\ listed [] (trace o)
     = [("Default Audio Device"%string, "default"%string)]
  /\ calls_of (trace o)
     = [obs_property_list_clear prop;
        obs_property_list_add_string prop "Default Audio Device" "default";
        snd_card_next (-1)].
Proof.
  cbv zeta. unfold alsa_device_list.
  do 2 (run_call; cbn [fst snd]). cbn [card_loop]. cbv zeta.
  run_call. cbn [fst snd]. intros H.
  destruct (Z.eqb_spec (ret r1) 0) as [Hr|Hr]; cbn [negb]; cbv iota;
    [|cbn; auto].
  destruct (Z.ltb_spec (out r1) 0) as [Hc|Hc]; [cbn; auto|].
  destruct H as [H | H]; [contradiction | lia].
Qed.

(** X25. The device selected by default is always on offer: the value of
    the first entry of the list is the default of the setting
    [pcm_name], and a source created with the default settings opens
    that device and is given two channels. *)
Theorem default_selector_is_listed (fuel : nat) (prop src : Z) (w w' : W) :
  (exists rest,
      listed [] (trace (alsa_device_list env fuel prop w))
      = ("Default Audio Device"%string, pcm_name alsa_defaults) :: rest)
  /\ (exists d' rf ro rest,
         value (alsa_create env alsa_defaults src w') = Some d'
         /\ trace (alsa_create env alsa_defaults src w')
            = Called (bfree (block_device None)) rf
              :: Called (snd_pcm_open 0 (Some (pcm_name alsa_defaults))
                           SND_PCM_STREAM_CAPTURE SND_PCM_NONBLOCK) ro
              :: rest
         /\ device d' = Some (pcm_name alsa_defaults)
         /\ channels d' = 2).
Proof.
  split; [apply default_entry_first|].
  unfold alsa_create.
  match goal with
  | |- context [alsa_update env ?d0 alsa_defaults w'] =>
      destruct (alsa_update_run env d0 alsa_defaults w')
        as (tstop & rf & ro & rest & d' & Hv & Ht & Hc & HF & _ & _
            & _ & Hdev & _ & Hch)
  end.
  cbn [thread pcm device Z.eqb app] in *.
  destruct tstop as [|[c r|p st] tstop];
    [ | cbn in Hc; discriminate Hc
      | apply Forall_inv in HF; cbn in HF; discriminate HF ].
  exists d', rf, ro, rest. cbn [app] in Ht. repeat split; assumption.
Qed.

(** X26. A card that opens but whose devices cannot be listed, or that
    has none, costs the enumeration that card only: the card is closed,
    nothing is added for it, and the loop goes on from it with the cards
    that remain. *)
Theorem card_without_devices_is_closed (fuel : nat)
    (prop card ci pi : Z) (w : W) :
  let n := lib env (snd_card_next card) w in
  let name := snprintf32 ("hw:" ++ string_of_Z (out (fst n))) in
  let o := lib env (snd_ctl_open name 0) (snd n) in
  let i := lib env (snd_ctl_card_info (out (fst o)) ci) (snd o) in
  let nd := lib env (snd_ctl_pcm_next_device (out (fst o)) (-1)) (snd i) in
  let c := lib env (snd_ctl_close (out (fst o))) (snd nd) in
  ret (fst n) = 0 -> 0 <= out (fst n) -> ret (fst o) = 0 ->
  ret (fst i) = 0 ->
  ret (fst nd) <> 0 \/ out (fst nd) < 0 ->
  card_loop env (S fuel) prop card ci pi w
  = prepend [Called (snd_card_next card) (fst n);
             Called (snd_ctl_open name 0) (fst o);
             Called (snd_ctl_card_info (out (fst o)) ci) (fst i);
             Called (snd_ctl_pcm_next_device (out (fst o)) (-1)) (fst nd);
             Called (snd_ctl_close (out (fst o))) (fst c)]
      (card_loop env fuel prop (out (fst n)) (out (fst i)) pi (snd c)).
Proof.
  intros n name o i nd c Hn Hc Ho Hi Hnd. subst n name o i nd c.
  cbn [card_loop]. cbv zeta.
  run_call. cbn [fst snd] in *. rewrite Hn. cbn [Z.eqb negb]. cbv iota.
  destruct (Z.ltb_spec (out r) 0) as [|_]; [lia|].
  run_call. cbn [fst snd] in *. rewrite Ho. cbn [Z.eqb negb]. cbv iota.
  run_call. cbn [fst snd] in *. rewrite Hi. cbn [Z.eqb negb]. cbv iota.
  assert (Hdl :
    device_loop env (S fuel) prop (out r0) (out r) (out r1) pi (-1) w2
    = {| value := Some pi;
         trace := [Called (snd_ctl_pcm_next_device (out r0) (-1))
                     (fst (lib env (snd_ctl_pcm_next_device (out r0) (-1))
                             w2))];
         world := snd (lib env (snd_ctl_pcm_next_device (out r0) (-1))
                         w2) |}).
  { cbn [device_loop]. cbv zeta. run_call. cbn [fst snd] in *.
    destruct (Z.eqb_spec (ret r2) 0) as [Hr|Hr]; cbn [negb]; cbv iota;
      [|reflexivity].
    destruct (Z.ltb_spec (out r2) 0) as [|Hd]; [reflexivity|].
    destruct Hnd as [Hnd | Hnd]; [contradiction | lia]. }
  rewrite (bind_run _ _ _ _ w2 _ _ _ Hdl). cbv beta iota zeta.
  destruct (lib env (snd_ctl_pcm_next_device (out r0) (-1)) w2)
    as [r2 w3].
  cbn [fst snd] in *. run_call. cbn [fst snd].
  rewrite !prepend_prepend. reflexivity.
Qed.

End MoreEnumeration.

(** X21 on the machine with three cards: the handles 21 and 22 were
    opened, and both were closed. *)
Lemma enumeration_closes_what_it_opens_witness :
  let o := alsa_device_list scripted 5 1 cards_script in
  opened (trace o) = closed (trace o).
Proof.
  exact (enumeration_closes_what_it_opens scripted 5 1 cards_script
           eq_refl).
Defined.

(** X24 on the machine without cards. *)
Lemma enumeration_without_cards_witness :
  let o := alsa_device_list scripted 3 1 no_cards_script in
  value o = Some tt
  /\ listed [] (trace o)
     = [("Default Audio Device"%string, "default"%string)]
  /\ calls_of (trace o)
     = [obs_property_list_clear 1;
        obs_property_list_add_string 1 "Default Audio Device" "default";
        snd_card_next (-1)].
Proof.
  refine (enumeration_without_cards scripted 2 1 no_cards_script _).
  right. reflexivity.
Defined.

(** X26 on the machine whose card 0 cannot list its devices. *)
Lemma card_without_devices_is_closed_witness :
  card_loop scripted 3 1 (-1) 0 0 no_devices_script
  = prepend [Called (snd_card_next (-1)) (Reply 0 0);
             Called (snd_ctl_open "hw:0" 0) (Reply 0 21);
             Called (snd_ctl_card_info 21 0) (Reply 0 1);
             Called (snd_ctl_pcm_next_device 21 (-1)) (Reply (-19) 0);
             Called (snd_ctl_close 21) ok]
      (card_loop scripted 2 1 0 1 0 (play [Reply 0 (-1)] [])).
Proof.
  refine (card_without_devices_is_closed scripted 2 1 (-1) 0 0
            no_devices_script _ _ _ _ _);
    [reflexivity | discriminate | reflexivity | reflexivity |].
  left. discriminate.
Defined.
